(** * Publishing a UDS bundle to a remote OCI registry

    Shallow embedding of [RemoteBundle.create]
    (src/pkg/bundler/remotebundle.go) and the properties of the
    bundle-assembly protocol: layer order of the root manifest, fail-fast
    error propagation, ordering of registry writes and the index upsert.

    The registry, the package publisher and the reference resolver are
    collaborators of [create]; they are kept abstract (class
    [Collaborators]) and every call [create] makes to them is recorded,
    with its arguments and its answer, in the trace of the run. *)

From Stdlib Require Import ZArith.
From stdpp Require Import base option list strings gmap.

(* ===================================================================== *)
(** ** Data model *)
(* ===================================================================== *)

(** Go's [error]: the message of the error value. *)
Definition error := string.

(** A Go result [(T, error)]. *)
Inductive result (A : Type) : Type :=
| Ok (a : A)
| Err (e : error).
Arguments Ok {A} a.
Arguments Err {A} e.

(** ocispec.Platform *)
Module Platform.
Record t := mk { Architecture : string; OS : string }.
End Platform.

#[global] Instance Platform_eq_dec : EqDecision Platform.t.
Proof. solve_decision. Defined.

(** ocispec.Descriptor *)
Module Descriptor.
Record t := mk {
  MediaType : string;
  Digest : string;
  Size : Z;
  Annotations : gmap string string;
  Platform : option Platform.t
}.
End Descriptor.

(** ocispec.Manifest *)
Module Manifest.
Record t := mk {
  SchemaVersion : Z;
  MediaType : string;
  Config : Descriptor.t;
  Layers : list Descriptor.t;
  Annotations : gmap string string
}.
End Manifest.

(** ocispec.Index: the entries of the image index, one descriptor (with
    its platform) per published platform. *)
Module Index.
Record t := mk { Manifests : list Descriptor.t }.
End Index.

(** types.UDSMetadata, types.UDSBuildData, the package entries of a bundle
    and types.UDSBundle, with the fields [create] reads. *)
Record UDSMetadata := {
  Name : string;
  Version : string;
  Architecture : string
}.

Record UDSBuildData := { BuildFields : list (string * string) }.

Record Package := {
  Repository : string;
  Ref : string
}.

Record UDSBundle := {
  Metadata : UDSMetadata;
  Build : UDSBuildData;
  Packages : list Package
}.

(** oci.OrasRemote: a registry client; [Reference] is
    [Repo().Reference.String()], [TargetPlatform] the platform the client
    is bound to. *)
Record OrasRemote := {
  Reference : string;
  TargetPlatform : Platform.t
}.

(** pusher.Config *)
Record PusherConfig := {
  Bundle : UDSBundle;
  RemoteDst : OrasRemote;
  NumPkgs : nat;
  RemoteSrc : option OrasRemote;
  PkgRootManifest : option Manifest.t;
  PkgIter : nat
}.

(** The receiver of [create]. *)
Record RemoteBundle := {
  bundle : UDSBundle;
  tmpDstDir : string;
  output : string
}.

(** NewRemoteBundle *)
Record RemoteBundleOpts := {
  OptBundle : UDSBundle;
  OptTmpDstDir : string;
  OptOutput : string
}.

Definition NewRemoteBundle (opts : RemoteBundleOpts) : RemoteBundle :=
  {| bundle := OptBundle opts;
     tmpDstDir := OptTmpDstDir opts;
     output := OptOutput opts |}.

(** Field updates written in the source as assignments. *)
Definition set_output (o : string) (r : RemoteBundle) : RemoteBundle :=
  {| bundle := bundle r; tmpDstDir := tmpDstDir r; output := o |}.

Definition set_Annotations (a : gmap string string) (d : Descriptor.t)
  : Descriptor.t :=
  {| Descriptor.MediaType := Descriptor.MediaType d;
     Descriptor.Digest := Descriptor.Digest d;
     Descriptor.Size := Descriptor.Size d;
     Descriptor.Annotations := a;
     Descriptor.Platform := Descriptor.Platform d |}.

Definition set_Platform (p : option Platform.t) (d : Descriptor.t)
  : Descriptor.t :=
  {| Descriptor.MediaType := Descriptor.MediaType d;
     Descriptor.Digest := Descriptor.Digest d;
     Descriptor.Size := Descriptor.Size d;
     Descriptor.Annotations := Descriptor.Annotations d;
     Descriptor.Platform := p |}.

Definition append_Layer (d : Descriptor.t) (m : Manifest.t) : Manifest.t :=
  {| Manifest.SchemaVersion := Manifest.SchemaVersion m;
     Manifest.MediaType := Manifest.MediaType m;
     Manifest.Config := Manifest.Config m;
     Manifest.Layers := Manifest.Layers m ++ [d];
     Manifest.Annotations := Manifest.Annotations m |}.

(** The three assignments before the root manifest is pushed. *)
Definition finish_Manifest (cfg : Descriptor.t) (v : Z)
  (a : gmap string string) (m : Manifest.t) : Manifest.t :=
  {| Manifest.SchemaVersion := v;
     Manifest.MediaType := Manifest.MediaType m;
     Manifest.Config := cfg;
     Manifest.Layers := Manifest.Layers m;
     Manifest.Annotations := a |}.

(** Go zero values: [ocispec.Descriptor{}] and [ocispec.Manifest{}]. *)
Definition zero_Descriptor : Descriptor.t :=
  {| Descriptor.MediaType := "";
     Descriptor.Digest := "";
     Descriptor.Size := 0;
     Descriptor.Annotations := ∅;
     Descriptor.Platform := None |}.

Definition zero_Manifest : Manifest.t :=
  {| Manifest.SchemaVersion := 0;
     Manifest.MediaType := "";
     Manifest.Config := zero_Descriptor;
     Manifest.Layers := [];
     Manifest.Annotations := ∅ |}.

Definition set_source (src : OrasRemote) (c : PusherConfig) : PusherConfig :=
  {| Bundle := Bundle c; RemoteDst := RemoteDst c; NumPkgs := NumPkgs c;
     RemoteSrc := Some src;
     PkgRootManifest := PkgRootManifest c; PkgIter := PkgIter c |}.

Definition set_package (m : Manifest.t) (i : nat) (c : PusherConfig)
  : PusherConfig :=
  {| Bundle := Bundle c; RemoteDst := RemoteDst c; NumPkgs := NumPkgs c;
     RemoteSrc := RemoteSrc c;
     PkgRootManifest := Some m; PkgIter := i |}.

(** Constants of the image-spec library. *)
Definition AnnotationTitle : string := "org.opencontainers.image.title".
Definition MediaTypeImageManifest : string :=
  "application/vnd.oci.image.manifest.v1+json".

(** The error [create] builds itself (fmt.Errorf). *)
Definition arch_required : error := "architecture is required for bundling".

(* ===================================================================== *)
(** ** Calls to the collaborators *)
(* ===================================================================== *)

(** One entry per call that [create] makes, with the arguments passed and
    the answer received. *)
Inductive Event : Type :=
| EvResolve (prefix : string) (md : UDSMetadata) (r : result string)
| EvBind (url : string) (p : Platform.t) (r : result OrasRemote)
| EvFetchRoot (src : OrasRemote) (r : result Manifest.t)
| EvPkgPush (pkg : Package) (cfg : PusherConfig) (r : result Descriptor.t)
| EvPushLayer (dst : OrasRemote) (b : list Byte.byte) (mt : string)
    (r : result Descriptor.t)
| EvPushConfig (dst : OrasRemote) (md : UDSMetadata) (bd : UDSBuildData)
    (r : result Descriptor.t)
| EvGetIndex (dst : OrasRemote) (ref : string) (r : result (option Index.t))
| EvPushManifest (m : Manifest.t) (mt : string) (dst : OrasRemote)
    (r : result Descriptor.t)
| EvPushIndex (dst : OrasRemote) (b : UDSBundle) (idx : Index.t)
    (r : result unit).

(** The collaborators of [create] over a world [W] (registry contents,
    credentials, global configuration): each effectful call takes the
    world and returns its answer and the world after the call. *)
Class Collaborators (W : Type) := {
  (* the value of config.GetArch() during the call, and the constants
     oci.MultiOS, oci.ZarfLayerMediaTypeBlob, config.BundleYAML,
     config.BundleYAMLSignature *)
  GetArch : string;
  MultiOS : string;
  ZarfLayerMediaTypeBlob : string;
  BundleYAML : string;
  BundleYAMLSignature : string;
  (* goyaml.Marshal(bundle) *)
  Marshal : UDSBundle → result (list Byte.byte);
  (* manifestAnnotationsFromMetadata(&bundle.Metadata) *)
  manifestAnnotationsFromMetadata : UDSMetadata → gmap string string;
  (* referenceFromMetadata(r.output, &r.bundle.Metadata) *)
  referenceFromMetadata : string → UDSMetadata → W → result string * W;
  (* oci.NewOrasRemote(url, platform) *)
  NewOrasRemote : string → Platform.t → W → result OrasRemote * W;
  (* src.FetchRoot() *)
  FetchRoot : OrasRemote → W → result Manifest.t * W;
  (* pusher.NewPkgPusher(pkg, pusherConfig).Push() *)
  PkgPush : Package → PusherConfig → W → result Descriptor.t * W;
  (* bundleRemote.PushLayer(bytes, mediaType) *)
  PushLayer :
    OrasRemote → list Byte.byte → string → W → result Descriptor.t * W;
  (* pushManifestConfigFromMetadata(bundleRemote, &Metadata, &Build) *)
  pushManifestConfigFromMetadata :
    OrasRemote → UDSMetadata → UDSBuildData → W → result Descriptor.t * W;
  (* utils.GetIndex(bundleRemote, dstRef.String()); nil when absent *)
  GetIndex : OrasRemote → string → W → result (option Index.t) * W;
  (* utils.ToOCIRemote(rootManifest, mediaType, bundleRemote) *)
  ToOCIRemote :
    Manifest.t → string → OrasRemote → W → result Descriptor.t * W;
  (* the registry write that ends utils.UpdateIndex *)
  pushIndex : OrasRemote → UDSBundle → Index.t → W → result unit * W
}.

(** Outcome of a computation: its result, the world it leaves and the
    calls it made, oldest first. *)
Record outcome (W A : Type) := Outcome {
  out_res : result A;
  out_world : W;
  out_trace : list Event
}.
Arguments Outcome {W A} _ _ _.
Arguments out_res {W A} _.
Arguments out_world {W A} _.
Arguments out_trace {W A} _.

(** State, error and trace monad: an error stops the computation. *)
Definition M (W A : Type) : Type := W → outcome W A.

#[global] Instance M_ret W : MRet (M W) :=
  λ A a w, Outcome (Ok a) w [].

#[global] Instance M_bind W : MBind (M W) :=
  λ A B f m w,
    match m w with
    | Outcome (Ok a) w1 t1 =>
        match f a w1 with
        | Outcome r w2 t2 => Outcome r w2 (t1 ++ t2)
        end
    | Outcome (Err e) w1 t1 => Outcome (Err e) w1 t1
    end.

(** [return err] with an error made on the spot, and [if err != nil] on
    the result of a pure call. *)
Definition fail {W A} (e : error) : M W A := λ w, Outcome (Err e) w [].

Definition lift {W A} (r : result A) : M W A := λ w, Outcome r w [].

(** A call to a collaborator, recorded in the trace. *)
Definition call {W A} (f : W → result A * W) (ev : result A → Event)
  : M W A :=
  λ w, match f w with (r, w') => Outcome r w' [ev r] end.

(** Every call a computation makes, in whatever world it runs, has the
    property [P]. *)
Definition every_call {W A} (P : Event → Prop) (m : M W A) : Prop :=
  ∀ w, Forall P (out_trace (m w)).

(* ===================================================================== *)
(** ** Helpers of the repository that [create] calls *)
(* ===================================================================== *)

Definition OCIURLPrefix : string := "oci://".

(** Whether an address carries the explicit OCI scheme. *)
Definition has_OCI_scheme (s : string) : bool := String.prefix OCIURLPrefix s.

(** Modelled from the spec: utils.EnsureOCIPrefix is not part of the
    sources at hand. The destination prefix, given with or without an
    explicit scheme, is normalized to an explicit OCI-scheme address: an
    address that has the scheme is kept, any other gets it prepended. *)
Definition EnsureOCIPrefix (source : string) : string :=
  if has_OCI_scheme source then source else OCIURLPrefix +:+ source.

(** Whether an index entry is the entry of platform [p]. *)
Definition entry_for (p : Platform.t) (d : Descriptor.t) : Prop :=
  Descriptor.Platform d = Some p.

#[global] Instance entry_for_dec p d : Decision (entry_for p d).
Proof. unfold entry_for. apply _. Defined.

(** Modelled from the spec: the index merge of utils.UpdateIndex is not
    part of the sources at hand. Replace-or-insert the entry whose
    platform matches: the entry found for the platform is replaced where
    it stands, every other entry is kept as it is, and a platform without
    an entry gets one at the end. *)
Fixpoint upsert (p : Platform.t) (d : Descriptor.t) (l : list Descriptor.t)
  : list Descriptor.t :=
  match l with
  | [] => [d]
  | e :: l' => if decide (entry_for p e) then d :: l' else e :: upsert p d l'
  end.

(** Modelled from the spec: an absent index is a fresh index with no
    entries. *)
Definition index_or_fresh (index : option Index.t) : Index.t :=
  default (Index.mk []) index.

(** Modelled from the spec: the updated index, that is the fetched one
    with the entry of the current platform (the platform the destination
    client is bound to) pointing at the new root manifest. *)
Definition updated_index (index : option Index.t) (remote : OrasRemote)
  (newManifestDesc : Descriptor.t) : Index.t :=
  let p := TargetPlatform remote in
  Index.mk (upsert p (set_Platform (Some p) newManifestDesc)
              (Index.Manifests (index_or_fresh index))).

Section create.
Context {W : Type} `{C : Collaborators W}.

(** Modelled from the spec: utils.UpdateIndex is not part of the sources
    at hand. Upsert into the index the entry for the current platform,
    preserving all other entries, and push the updated index. *)
Definition UpdateIndex (index : option Index.t) (remote : OrasRemote)
  (b : UDSBundle) (newManifestDesc : Descriptor.t) : M W unit :=
  let newIndex := updated_index index remote newManifestDesc in
  call (pushIndex remote b newIndex) (EvPushIndex remote b newIndex).

(* ===================================================================== *)
(** ** [RemoteBundle.create] *)
(* ===================================================================== *)

(** The loop [for i, pkg := range bundle.Packages]: [pusherConfig] and
    [rootManifest] are the variables it updates, [i] the index of the
    first package of [pkgs]. *)
Fixpoint pushPackages (platform : Platform.t) (pkgs : list Package) (i : nat)
  (pusherConfig : PusherConfig) (rootManifest : Manifest.t)
  : M W Manifest.t :=
  match pkgs with
  | [] => mret rootManifest
  | pkg :: rest =>
      let pkgUrl := Repository pkg +:+ ":" +:+ Ref pkg in
      src ← call (NewOrasRemote pkgUrl platform) (EvBind pkgUrl platform);
      let pusherConfig := set_source src pusherConfig in
      pkgRootManifest ← call (FetchRoot src) (EvFetchRoot src);
      let pusherConfig := set_package pkgRootManifest i pusherConfig in
      zarfManifestDesc ←
        call (PkgPush pkg pusherConfig) (EvPkgPush pkg pusherConfig);
      pushPackages platform rest (S i) pusherConfig
        (append_Layer zarfManifestDesc rootManifest)
  end.

(** The signature block: [if len(signature) > 0 { ... }]. *)
Definition pushSignature (bundleRemote : OrasRemote)
  (signature : list Byte.byte) (rootManifest : Manifest.t)
  : M W Manifest.t :=
  if decide (0 < length signature) then
    bundleYamlSigDesc ←
      call (PushLayer bundleRemote signature ZarfLayerMediaTypeBlob)
           (EvPushLayer bundleRemote signature ZarfLayerMediaTypeBlob);
    let bundleYamlSigDesc :=
      set_Annotations {[ AnnotationTitle := BundleYAMLSignature ]}
        bundleYamlSigDesc in
    mret (append_Layer bundleYamlSigDesc rootManifest)
  else mret rootManifest.

(** The body of [create] after [r.output] has been assigned; [r] is the
    receiver with the new [output]. The calls to [message] only print and
    are left out. *)
Definition create_steps (r : RemoteBundle) (signature : list Byte.byte)
  : M W unit :=
  ref ← call (referenceFromMetadata (output r) (Metadata (bundle r)))
             (EvResolve (output r) (Metadata (bundle r)));
  let platform := Platform.mk GetArch MultiOS in
  bundleRemote ← call (NewOrasRemote ref platform) (EvBind ref platform);
  let bundle := bundle r in
  if decide (Architecture (Metadata bundle) = "") then fail arch_required
  else
    let dstRef := Reference bundleRemote in
    let rootManifest := zero_Manifest in
    let pusherConfig :=
      {| Bundle := bundle; RemoteDst := bundleRemote;
         NumPkgs := length (Packages bundle);
         RemoteSrc := None; PkgRootManifest := None; PkgIter := 0 |} in
    rootManifest ←
      pushPackages platform (Packages bundle) 0 pusherConfig rootManifest;
    bundleYamlBytes ← lift (Marshal bundle);
    bundleYamlDesc ←
      call (PushLayer bundleRemote bundleYamlBytes ZarfLayerMediaTypeBlob)
           (EvPushLayer bundleRemote bundleYamlBytes ZarfLayerMediaTypeBlob);
    let bundleYamlDesc :=
      set_Annotations {[ AnnotationTitle := BundleYAML ]} bundleYamlDesc in
    let rootManifest := append_Layer bundleYamlDesc rootManifest in
    rootManifest ← pushSignature bundleRemote signature rootManifest;
    configDesc ←
      call (pushManifestConfigFromMetadata bundleRemote (Metadata bundle)
              (Build bundle))
           (EvPushConfig bundleRemote (Metadata bundle) (Build bundle));
    index ← call (GetIndex bundleRemote dstRef)
                 (EvGetIndex bundleRemote dstRef);
    let rootManifest :=
      finish_Manifest configDesc 2
        (manifestAnnotationsFromMetadata (Metadata bundle)) rootManifest in
    rootManifestDesc ←
      call (ToOCIRemote rootManifest MediaTypeImageManifest bundleRemote)
           (EvPushManifest rootManifest MediaTypeImageManifest bundleRemote);
    UpdateIndex index bundleRemote bundle rootManifestDesc.

(** [create]: the receiver after the call and the outcome of the call. *)
Definition create (r : RemoteBundle) (signature : list Byte.byte) (w : W)
  : RemoteBundle * outcome W unit :=
  let r := set_output (EnsureOCIPrefix (output r)) r in
  (r, create_steps r signature w).

End create.

(* ===================================================================== *)
(** ** Reading a trace *)
(* ===================================================================== *)

(** The error a call answered with, if it failed. *)
Definition ev_error (e : Event) : option error :=
  let err {A} (r : result A) :=
    match r with Ok _ => None | Err x => Some x end in
  match e with
  | EvResolve _ _ r => err r
  | EvBind _ _ r => err r
  | EvFetchRoot _ r => err r
  | EvPkgPush _ _ r => err r
  | EvPushLayer _ _ _ r => err r
  | EvPushConfig _ _ _ r => err r
  | EvGetIndex _ _ r => err r
  | EvPushManifest _ _ _ r => err r
  | EvPushIndex _ _ _ r => err r
  end.

Inductive Kind : Type :=
| KResolve | KBind | KFetchRoot | KPkgPush | KPushLayer | KPushConfig
| KGetIndex | KPushManifest | KPushIndex.

#[global] Instance Kind_eq_dec : EqDecision Kind.
Proof. solve_decision. Defined.

Definition ev_kind (e : Event) : Kind :=
  match e with
  | EvResolve _ _ _ => KResolve
  | EvBind _ _ _ => KBind
  | EvFetchRoot _ _ => KFetchRoot
  | EvPkgPush _ _ _ => KPkgPush
  | EvPushLayer _ _ _ _ => KPushLayer
  | EvPushConfig _ _ _ _ => KPushConfig
  | EvGetIndex _ _ _ => KGetIndex
  | EvPushManifest _ _ _ _ => KPushManifest
  | EvPushIndex _ _ _ _ => KPushIndex
  end.

(** Calls that go to a registry: everything but reference resolution. *)
Definition is_network (e : Event) : bool :=
  bool_decide (ev_kind e ≠ KResolve).

(** Calls of the package loop: binding a source client, fetching the
    source's root manifest, publishing the package. *)
Definition is_package_step (e : Event) : bool :=
  bool_decide (ev_kind e ∈ [KBind; KFetchRoot; KPkgPush]).

(** Calls that come after the package loop. *)
Definition is_assembly_step (e : Event) : bool :=
  bool_decide (ev_kind e ∈ [KPushLayer; KPushConfig; KGetIndex;
                            KPushManifest; KPushIndex]).

(** Calls that come after the blobs of the bundle have been pushed. *)
Definition is_publication_step (e : Event) : bool :=
  bool_decide (ev_kind e ∈ [KPushConfig; KGetIndex; KPushManifest;
                            KPushIndex]).

(** The packages published with success, with the descriptors returned,
    in the order of the calls. *)
Definition published (tr : list Event) : list (Package * Descriptor.t) :=
  omap (λ e, match e with
             | EvPkgPush pkg _ (Ok d) => Some (pkg, d)
             | _ => None
             end) tr.

(** The platforms registry clients were bound to, in the order of the
    calls. *)
Definition bound_platforms (tr : list Event) : list Platform.t :=
  omap (λ e, match e with EvBind _ p _ => Some p | _ => None end) tr.


(** The entries of an index for one platform, and the other entries. *)
Definition entries_for (p : Platform.t) (l : list Descriptor.t)
  : list Descriptor.t := filter (entry_for p) l.

Definition entries_not_for (p : Platform.t) (l : list Descriptor.t)
  : list Descriptor.t := filter (λ d, ¬ entry_for p d) l.

(* ===================================================================== *)
(** ** The shape of a run *)
(* ===================================================================== *)

(** What the collaborators answered for one package that was published:
    the source client, the source's root manifest, the descriptor of the
    package's manifest at the destination. *)
Record PkgAnswer := {
  ans_src : OrasRemote;
  ans_root : Manifest.t;
  ans_desc : Descriptor.t
}.

(** A manifest with its layers replaced. *)
Definition with_Layers (l : list Descriptor.t) (m : Manifest.t) : Manifest.t :=
  {| Manifest.SchemaVersion := Manifest.SchemaVersion m;
     Manifest.MediaType := Manifest.MediaType m;
     Manifest.Config := Manifest.Config m;
     Manifest.Layers := l;
     Manifest.Annotations := Manifest.Annotations m |}.

(** The address of a package's source: [fmt.Sprintf("%s:%s", ...)]. *)
Definition pkgUrl (pkg : Package) : string :=
  Repository pkg +:+ ":" +:+ Ref pkg.

(** The calls of the package loop when every call succeeds, given the
    answers. *)
Fixpoint pkg_events (platform : Platform.t) (pkgs : list Package)
  (ans : list PkgAnswer) (i : nat) (cfg : PusherConfig) : list Event :=
  match pkgs, ans with
  | pkg :: pkgs', a :: ans' =>
      let cfg' := set_package (ans_root a) i (set_source (ans_src a) cfg) in
      EvBind (pkgUrl pkg) platform (Ok (ans_src a))
      :: EvFetchRoot (ans_src a) (Ok (ans_root a))
      :: EvPkgPush pkg cfg' (Ok (ans_desc a))
      :: pkg_events platform pkgs' ans' (S i) cfg'
  | _, _ => []
  end.

(** The calls made for a package whose publication fails, with the error. *)
Inductive failing_step (platform : Platform.t) (pkg : Package)
  : error → list Event → Prop :=
| fail_bind e :
    failing_step platform pkg e [EvBind (pkgUrl pkg) platform (Err e)]
| fail_fetch src e :
    failing_step platform pkg e
      [EvBind (pkgUrl pkg) platform (Ok src); EvFetchRoot src (Err e)]
| fail_push src mf cfg e :
    failing_step platform pkg e
      [EvBind (pkgUrl pkg) platform (Ok src); EvFetchRoot src (Ok mf);
       EvPkgPush pkg cfg (Err e)].

(** The runs of the package loop. *)
Inductive loop_run (platform : Platform.t) (pkgs : list Package) (i : nat)
  (cfg : PusherConfig) (m : Manifest.t)
  : result Manifest.t → list Event → Prop :=
| loop_done ans :
    length ans = length pkgs →
    loop_run platform pkgs i cfg m
      (Ok (with_Layers (Manifest.Layers m ++ map ans_desc ans) m))
      (pkg_events platform pkgs ans i cfg)
| loop_failed done pkg rest ans e tail :
    pkgs = done ++ pkg :: rest →
    length ans = length done →
    failing_step platform pkg e tail →
    loop_run platform pkgs i cfg m (Err e)
      (pkg_events platform done ans i cfg ++ tail).

Section shapes.
Context {W : Type} `{C : Collaborators W}.

Definition platform : Platform.t := Platform.mk GetArch MultiOS.

Definition title (name : string) (d : Descriptor.t) : Descriptor.t :=
  set_Annotations {[ AnnotationTitle := name ]} d.

Section one_call.
Variables (r : RemoteBundle) (signature : list Byte.byte).

Definition pusherConfig0 (dst : OrasRemote) : PusherConfig :=
  {| Bundle := bundle r; RemoteDst := dst;
     NumPkgs := length (Packages (bundle r));
     RemoteSrc := None; PkgRootManifest := None; PkgIter := 0 |}.

(** Calls up to the end of the package loop, all successful. *)
Definition bound_events (ref : string) (dst : OrasRemote) : list Event :=
  [EvResolve (output r) (Metadata (bundle r)) (Ok ref);
   EvBind ref platform (Ok dst)].

Definition packaged_events (ref : string) (dst : OrasRemote)
  (ans : list PkgAnswer) : list Event :=
  bound_events ref dst
  ++ pkg_events platform (Packages (bundle r)) ans 0 (pusherConfig0 dst).

(** Calls up to the push of the signature, all successful; [sd] is the
    descriptor returned for the signature, if one was pushed. *)
Definition signature_events (dst : OrasRemote) (sd : option Descriptor.t)
  : list Event :=
  match sd with
  | Some d => [EvPushLayer dst signature ZarfLayerMediaTypeBlob (Ok d)]
  | None => []
  end.

Definition layered_events (ref : string) (dst : OrasRemote)
  (ans : list PkgAnswer) (bytes : list Byte.byte) (d : Descriptor.t)
  (sd : option Descriptor.t) : list Event :=
  packaged_events ref dst ans
  ++ EvPushLayer dst bytes ZarfLayerMediaTypeBlob (Ok d)
  :: signature_events dst sd.

(** The layers of the root manifest, from the answers. *)
Definition root_layers (ans : list PkgAnswer) (d : Descriptor.t)
  (sd : option Descriptor.t) : list Descriptor.t :=
  map ans_desc ans ++ title BundleYAML d
  :: match sd with
     | Some s => [title BundleYAMLSignature s]
     | None => []
     end.

Definition root_manifest (ans : list PkgAnswer) (d : Descriptor.t)
  (sd : option Descriptor.t) (cd : Descriptor.t) : Manifest.t :=
  {| Manifest.SchemaVersion := 2;
     Manifest.MediaType := "";
     Manifest.Config := cd;
     Manifest.Layers := root_layers ans d sd;
     Manifest.Annotations :=
       manifestAnnotationsFromMetadata (Metadata (bundle r)) |}.

(** The signature is pushed exactly when it is not empty. *)
Definition signature_pushed (sd : option Descriptor.t) : Prop :=
  match sd with
  | Some _ => 0 < length signature
  | None => ¬ 0 < length signature
  end.

(** The calls from the push of the root manifest on, with the result of
    [create]. *)
Inductive publish_run (dst : OrasRemote) (oidx : option Index.t)
  (m : Manifest.t) : result unit → list Event → Prop :=
| publish_manifest_failed e :
    publish_run dst oidx m (Err e)
      [EvPushManifest m MediaTypeImageManifest dst (Err e)]
| publish_manifest_pushed rd ri :
    publish_run dst oidx m ri
      [EvPushManifest m MediaTypeImageManifest dst (Ok rd);
       EvPushIndex dst (bundle r) (updated_index oidx dst rd) ri].

(** Every way [create] can run: the result and the calls made. *)
Inductive create_run : result unit → list Event → Prop :=
| run_resolve_failed e :
    create_run (Err e) [EvResolve (output r) (Metadata (bundle r)) (Err e)]
| run_bind_failed ref e :
    create_run (Err e)
      [EvResolve (output r) (Metadata (bundle r)) (Ok ref);
       EvBind ref platform (Err e)]
| run_no_architecture ref dst :
    Architecture (Metadata (bundle r)) = "" →
    create_run (Err arch_required) (bound_events ref dst)
| run_package_failed ref dst done pkg rest ans tail e :
    Architecture (Metadata (bundle r)) ≠ "" →
    Packages (bundle r) = done ++ pkg :: rest →
    length ans = length done →
    failing_step platform pkg e tail →
    create_run (Err e)
      (bound_events ref dst
       ++ pkg_events platform done ans 0 (pusherConfig0 dst) ++ tail)
| run_marshal_failed ref dst ans e :
    Architecture (Metadata (bundle r)) ≠ "" →
    length ans = length (Packages (bundle r)) →
    Marshal (bundle r) = Err e →
    create_run (Err e) (packaged_events ref dst ans)
| run_metadata_failed ref dst ans bytes e :
    Architecture (Metadata (bundle r)) ≠ "" →
    length ans = length (Packages (bundle r)) →
    Marshal (bundle r) = Ok bytes →
    create_run (Err e)
      (packaged_events ref dst ans
       ++ [EvPushLayer dst bytes ZarfLayerMediaTypeBlob (Err e)])
| run_signature_failed ref dst ans bytes d e :
    Architecture (Metadata (bundle r)) ≠ "" →
    length ans = length (Packages (bundle r)) →
    Marshal (bundle r) = Ok bytes →
    0 < length signature →
    create_run (Err e)
      (layered_events ref dst ans bytes d None
       ++ [EvPushLayer dst signature ZarfLayerMediaTypeBlob (Err e)])
| run_config_failed ref dst ans bytes d sd e :
    Architecture (Metadata (bundle r)) ≠ "" →
    length ans = length (Packages (bundle r)) →
    Marshal (bundle r) = Ok bytes →
    signature_pushed sd →
    create_run (Err e)
      (layered_events ref dst ans bytes d sd
       ++ [EvPushConfig dst (Metadata (bundle r)) (Build (bundle r))
             (Err e)])
| run_index_failed ref dst ans bytes d sd cd e :
    Architecture (Metadata (bundle r)) ≠ "" →
    length ans = length (Packages (bundle r)) →
    Marshal (bundle r) = Ok bytes →
    signature_pushed sd →
    create_run (Err e)
      (layered_events ref dst ans bytes d sd
       ++ [EvPushConfig dst (Metadata (bundle r)) (Build (bundle r)) (Ok cd);
           EvGetIndex dst (Reference dst) (Err e)])
| run_published ref dst ans bytes d sd cd oidx res tl :
    Architecture (Metadata (bundle r)) ≠ "" →
    length ans = length (Packages (bundle r)) →
    Marshal (bundle r) = Ok bytes →
    signature_pushed sd →
    publish_run dst oidx (root_manifest ans d sd cd) res tl →
    create_run res
      (layered_events ref dst ans bytes d sd
       ++ [EvPushConfig dst (Metadata (bundle r)) (Build (bundle r)) (Ok cd);
           EvGetIndex dst (Reference dst) (Ok oidx)]
       ++ tl).

End one_call.
End shapes.

(* ===================================================================== *)
(** ** A registry double *)
(* ===================================================================== *)

(** A small registry to run [create] against: every call that reaches the
    registry consumes one unit of [budget] and fails once the budget is
    used up; the registry keeps the index that was pushed last. *)
Module Double.

Record World := {
  budget : nat;
  stored : option Index.t
}.

Definition unavailable : error := "registry unavailable".

Definition guarded {A : Type} (f : World → A * World) (w : World)
  : result A * World :=
  match budget w with
  | O => (Err unavailable, w)
  | S n =>
      let aw := f {| budget := n; stored := stored w |} in (Ok aw.1, aw.2)
  end.

Definition blob (mt digest : string) (size : nat) : Descriptor.t :=
  {| Descriptor.MediaType := mt;
     Descriptor.Digest := digest;
     Descriptor.Size := Z.of_nat size;
     Descriptor.Annotations := ∅;
     Descriptor.Platform := None |}.

#[global] Instance collaborators : Collaborators World := {|
  GetArch := "arm64";
  MultiOS := "multi";
  ZarfLayerMediaTypeBlob := "application/vnd.zarf.layer.v1.blob";
  BundleYAML := "uds-bundle.yaml";
  BundleYAMLSignature := "uds-bundle.yaml.sig";
  Marshal := λ b, Ok (String.list_byte_of_string (Name (Metadata b)));
  manifestAnnotationsFromMetadata := λ md, {[ AnnotationTitle := Name md ]};
  referenceFromMetadata := λ out md w,
    (Ok (out +:+ "/" +:+ Name md +:+ ":" +:+ Version md), w);
  NewOrasRemote := λ url p,
    guarded (λ w, ({| Reference := url; TargetPlatform := p |}, w));
  FetchRoot := λ src, guarded (λ w, (zero_Manifest, w));
  PkgPush := λ pkg cfg,
    guarded (λ w, (blob MediaTypeImageManifest (pkgUrl pkg) (PkgIter cfg), w));
  PushLayer := λ dst bytes mt,
    guarded (λ w, (blob mt "layer" (length bytes), w));
  pushManifestConfigFromMetadata := λ dst md bd,
    guarded (λ w, (blob "application/vnd.oci.image.config.v1+json"
                     (Name md) 0, w));
  GetIndex := λ dst ref, guarded (λ w, (stored w, w));
  ToOCIRemote := λ m mt dst,
    guarded (λ w, (blob mt "root" (length (Manifest.Layers m)), w));
  pushIndex := λ dst b idx,
    guarded (λ w, (tt, {| budget := budget w; stored := Some idx |}))
|}.

(** A bundle of two packages for architecture amd64, and the same bundle
    without an architecture. *)
Definition P1 : Package := {| Repository := "ghcr.io/p/one"; Ref := "0.0.1" |}.
Definition P2 : Package := {| Repository := "ghcr.io/p/two"; Ref := "0.0.2" |}.

Definition core (arch : string) : UDSBundle :=
  {| Metadata := {| Name := "core"; Version := "1.0.0"; Architecture := arch |};
     Build := {| BuildFields := [("user", "ci")] |};
     Packages := [P1; P2] |}.

Definition remote (arch out : string) : RemoteBundle :=
  NewRemoteBundle
    {| OptBundle := core arch; OptTmpDstDir := "/tmp/uds"; OptOutput := out |}.

Definition sig : list Byte.byte := [Byte.x01; Byte.x02].

(** A registry that answers [n] calls, with no index yet, and one that
    already holds an index with entries for two platforms. *)
Definition fresh (n : nat) : World := {| budget := n; stored := None |}.

Definition entry (arch digest : string) : Descriptor.t :=
  set_Platform (Some (Platform.mk arch "multi"))
    (blob MediaTypeImageManifest digest 3).

Definition seeded (n : nat) : World :=
  {| budget := n;
     stored := Some (Index.mk [entry "amd64" "old-amd64";
                               entry "arm64" "old-arm64"]) |}.

End Double.

(* ===================================================================== *)
(** ** Properties of a run *)
(* ===================================================================== *)

(** The calls of one kind, in the order they were made. *)
Definition calls_of (k : Kind) (tr : list Event) : list Event :=
  filter (λ e, ev_kind e = k) tr.

(** No call reached a registry. *)
Definition no_network (tr : list Event) : Prop :=
  Forall (λ e, is_network e = false) tr.



(** An index has at most one entry per platform. *)
Definition unique_platforms (l : list Descriptor.t) : Prop :=
  ∀ q, length (entries_for q l) ≤ 1.

(** A call that is handed the bundle, or a part of it, is handed the
    bundle [b] as it is. *)
Definition carries_bundle (b : UDSBundle) (e : Event) : Prop :=
  match e with
  | EvResolve _ md _ => md = Metadata b
  | EvPkgPush pkg cfg _ =>
      pkg ∈ Packages b ∧ Bundle cfg = b
      ∧ NumPkgs cfg = length (Packages b)
  | EvPushConfig _ md bd _ => md = Metadata b ∧ bd = Build b
  | EvPushIndex _ b' _ _ => b' = b
  | _ => True
  end.

Section statements.
Context {W : Type} `{C : Collaborators W}.

(** A successful bind returns a client bound to the platform asked for. *)
Definition binds_as_asked : Prop :=
  ∀ url p (w : W) o w',
    NewOrasRemote url p w = (Ok o, w') → TargetPlatform o = p.

(** The runs of [create] on a bundle without architecture: [out] is the
    normalized destination prefix. *)
Definition stops_at_architecture_check (out : string) (md : UDSMetadata)
  (res : result unit) (tr : list Event) : Prop :=
  (∃ e, res = Err e ∧ tr = [EvResolve out md (Err e)])
  ∨ (∃ ref e, res = Err e
       ∧ tr = [EvResolve out md (Ok ref); EvBind ref platform (Err e)])
  ∨ (∃ ref dst, res = Err arch_required
       ∧ tr = [EvResolve out md (Ok ref); EvBind ref platform (Ok dst)]).


(** The root manifest pushed in [tr] has schema version 2, the descriptor
    of the pushed config blob as config and the annotations derived from
    the metadata. *)
Definition root_manifest_assigned (b : UDSBundle) (tr : list Event) : Prop :=
  ∃ m dst rd cd,
    calls_of KPushManifest tr
    = [EvPushManifest m MediaTypeImageManifest dst (Ok rd)]
    ∧ calls_of KPushConfig tr
      = [EvPushConfig dst (Metadata b) (Build b) (Ok cd)]
    ∧ Manifest.SchemaVersion m = 2%Z
    ∧ Manifest.Config m = cd
    ∧ Manifest.Annotations m = manifestAnnotationsFromMetadata (Metadata b).

(** The layers behind the packages carry their title: the metadata layer
    exactly that annotation, and so does the signature layer when a
    signature was given. *)
Definition tail_layers_titled (b : UDSBundle) (signature : list Byte.byte)
  (tr : list Event) : Prop :=
  ∃ m dst rd,
    calls_of KPushManifest tr
    = [EvPushManifest m MediaTypeImageManifest dst (Ok rd)]
    ∧ (∃ md,
         Manifest.Layers m !! length (Packages b) = Some md
         ∧ Descriptor.Annotations md = {[ AnnotationTitle := BundleYAML ]}
         ∧ size (Descriptor.Annotations md) = 1
         ∧ Descriptor.Annotations md !! AnnotationTitle = Some BundleYAML)
    ∧ (0 < length signature →
       ∃ sd,
         Manifest.Layers m !! S (length (Packages b)) = Some sd
         ∧ Descriptor.Annotations sd
           = {[ AnnotationTitle := BundleYAMLSignature ]}
         ∧ Descriptor.Annotations sd !! AnnotationTitle
           = Some BundleYAMLSignature).

(** The index pushed at the end of [tr] is the index fetched before, with
    the entry of the current platform pointing at the root manifest pushed
    in [tr]. *)
Definition index_upserted (tr : list Event) : Prop :=
  ∃ m dst rd oidx b idx,
    calls_of KGetIndex tr = [EvGetIndex dst (Reference dst) (Ok oidx)]
    ∧ calls_of KPushManifest tr
      = [EvPushManifest m MediaTypeImageManifest dst (Ok rd)]
    ∧ calls_of KPushIndex tr = [EvPushIndex dst b idx (Ok tt)]
    ∧ last tr = Some (EvPushIndex dst b idx (Ok tt))
    ∧ let p := TargetPlatform dst in
      let old := Index.Manifests (index_or_fresh oidx) in
      let new := Index.Manifests idx in
      let entry := set_Platform (Some p) rd in
      entry ∈ new
      ∧ entries_not_for p new = entries_not_for p old
      ∧ (entries_for p old = [] → new = old ++ [entry])
      ∧ (entries_for p old ≠ [] → length new = length old)
      ∧ (unique_platforms old →
         unique_platforms new ∧ entries_for p new = [entry]).

(** A bind asks for the configured platform, and the client it returns
    is bound to that platform. *)
Definition bound_as_configured (e : Event) : Prop :=
  match e with
  | EvBind _ p res =>
      p = Platform.mk GetArch MultiOS
      ∧ ∀ o, res = Ok o → TargetPlatform o = Platform.mk GetArch MultiOS
  | _ => True
  end.

End statements.

(* ===================================================================== *)
(** ** The protocol of a run *)
(* ===================================================================== *)

(** The calls of [create] in the order of its statements, for a bundle of
    [n] packages: resolve, bind the destination, then bind, fetch and
    publish for each package, push the metadata layer, push the signature
    layer if there is a signature, push the config, fetch the index, push
    the root manifest, push the index. *)
Definition protocol (n : nat) (signed : bool) : list Kind :=
  [KResolve; KBind]
  ++ concat (replicate n [KBind; KFetchRoot; KPkgPush])
  ++ KPushLayer :: (if signed then [KPushLayer] else [])
  ++ [KPushConfig; KGetIndex; KPushManifest; KPushIndex].

(** The byte sequences handed to [PushLayer], in the order of the calls. *)
Definition layer_payloads (tr : list Event) : list (list Byte.byte) :=
  omap (λ e, match e with EvPushLayer _ b _ _ => Some b | _ => None end) tr.

(** The addresses registry clients were bound to, in the order of the
    calls. *)
Definition bound_urls (tr : list Event) : list string :=
  omap (λ e, match e with EvBind url _ _ => Some url | _ => None end) tr.

(** The layers [create] pushes for a bundle that serializes to [bytes]. *)
Definition expected_payloads (bytes signature : list Byte.byte)
  : list (list Byte.byte) :=
  bytes :: (if decide (0 < length signature) then [signature] else []).

Section more_statements.
Context {W : Type} `{C : Collaborators W}.

(** A call made after the package loop goes to the client [dst], with the
    media type and the reference that [create] passes. *)
Definition on_destination (dst : OrasRemote) (e : Event) : Prop :=
  match e with
  | EvPushLayer d _ mt _ => d = dst ∧ mt = ZarfLayerMediaTypeBlob
  | EvPushConfig d _ _ _ => d = dst
  | EvGetIndex d ref _ => d = dst ∧ ref = Reference dst
  | EvPushManifest _ mt d _ => d = dst ∧ mt = MediaTypeImageManifest
  | EvPushIndex d _ _ _ => d = dst
  | _ => True
  end.

(** Where an error returned by [create] comes from: the last call, the
    architecture check, or the serialization of the bundle. *)
Definition error_origin (b : UDSBundle) (e : error) (tr : list Event)
  : Prop :=
  (∃ f, last tr = Some f ∧ ev_error f = Some e)
  ∨ (Architecture (Metadata b) = "" ∧ e = arch_required
     ∧ Forall (λ x, ev_error x = None) tr ∧ length tr = 2)
  ∨ (Marshal b = Err e
     ∧ Forall (λ x, ev_error x = None) tr
     ∧ (published tr).*1 = Packages b
     ∧ Forall (λ x, is_assembly_step x = false) tr).

(** The configuration handed to the package publisher at call [j] of
    [tr], for package [pkg]: the position of the package, the number of
    packages, the bundle, the destination client bound at call 1, and the
    source client and root manifest obtained by the two calls before. *)
Definition configured_for (b : UDSBundle) (tr : list Event) (j : nat)
  (pkg : Package) (cfg : PusherConfig) : Prop :=
  ∃ k src mf ref,
    j = 3 * k + 4
    ∧ Packages b !! k = Some pkg
    ∧ PkgIter cfg = k
    ∧ NumPkgs cfg = length (Packages b)
    ∧ Bundle cfg = b
    ∧ RemoteSrc cfg = Some src
    ∧ PkgRootManifest cfg = Some mf
    ∧ tr !! 1 = Some (EvBind ref platform (Ok (RemoteDst cfg)))
    ∧ tr !! (3 * k + 2) = Some (EvBind (pkgUrl pkg) platform (Ok src))
    ∧ tr !! (3 * k + 3) = Some (EvFetchRoot src (Ok mf)).

(** A bind asks for the platform made of the configured architecture and
    the multi-platform OS marker. *)
Definition asks_configured (e : Event) : Prop :=
  match e with
  | EvBind _ p _ => p = Platform.mk GetArch MultiOS
  | _ => True
  end.


End more_statements.

(** The registry double with a serializer that fails. *)
Definition unmarshalable : Collaborators Double.World := {|
  GetArch := @GetArch _ Double.collaborators;
  MultiOS := @MultiOS _ Double.collaborators;
  ZarfLayerMediaTypeBlob := @ZarfLayerMediaTypeBlob _ Double.collaborators;
  BundleYAML := @BundleYAML _ Double.collaborators;
  BundleYAMLSignature := @BundleYAMLSignature _ Double.collaborators;
  Marshal := λ _, Err "cannot marshal";
  manifestAnnotationsFromMetadata :=
    @manifestAnnotationsFromMetadata _ Double.collaborators;
  referenceFromMetadata := @referenceFromMetadata _ Double.collaborators;
  NewOrasRemote := @NewOrasRemote _ Double.collaborators;
  FetchRoot := @FetchRoot _ Double.collaborators;
  PkgPush := @PkgPush _ Double.collaborators;
  PushLayer := @PushLayer _ Double.collaborators;
  pushManifestConfigFromMetadata :=
    @pushManifestConfigFromMetadata _ Double.collaborators;
  GetIndex := @GetIndex _ Double.collaborators;
  ToOCIRemote := @ToOCIRemote _ Double.collaborators;
  pushIndex := @pushIndex _ Double.collaborators
|}.

(* ===================================================================== *)
(** ** Running the monad *)
(* ===================================================================== *)

Section monad_facts.
Context {W : Type}.

Lemma bind_ok {A B} (m : M W A) (k : A → M W B) w a :
  out_res (m w) = Ok a →
  (m ≫= k) w =
    Outcome (out_res (k a (out_world (m w))))
            (out_world (k a (out_world (m w))))
            (out_trace (m w) ++ out_trace (k a (out_world (m w)))).
Proof.
  intros E. unfold mbind, M_bind.
  destruct (m w) as [res w1 t1]; cbn in *; subst res. by destruct (k a w1).
Qed.

Lemma bind_err {A B} (m : M W A) (k : A → M W B) w e :
  out_res (m w) = Err e →
  (m ≫= k) w = Outcome (Err e) (out_world (m w)) (out_trace (m w)).
Proof.
  intros E. unfold mbind, M_bind.
  by destruct (m w) as [res w1 t1]; cbn in *; subst res.
Qed.

Lemma bind_call_ok {A B} (f : W → result A * W) ev (k : A → M W B) w a w' :
  f w = (Ok a, w') →
  (call f ev ≫= k) w =
    Outcome (out_res (k a w')) (out_world (k a w'))
            (ev (Ok a) :: out_trace (k a w')).
Proof.
  intros E. unfold mbind, M_bind, call. rewrite E. by destruct (k a w').
Qed.

Lemma bind_call_err {A B} (f : W → result A * W) ev (k : A → M W B) w e w' :
  f w = (Err e, w') →
  (call f ev ≫= k) w = Outcome (Err e) w' [ev (Err e)].
Proof. intros E. unfold mbind, M_bind, call. by rewrite E. Qed.

Lemma call_run {A} (f : W → result A * W) ev w r w' :
  f w = (r, w') → call f ev w = Outcome r w' [ev r].
Proof. intros E. unfold call. by rewrite E. Qed.

End monad_facts.

(** One step of symbolic execution: case on the answer of the next call;
    [a] names the answer, [e] the error, [w'] the world after the call. *)
Ltac step_call a e w' :=
  match goal with
  | |- context [ (call ?f ?ev ≫= ?k) ?w ] =>
      let E := fresh "E" in
      destruct (f w) as [[a | e] w'] eqn:E;
      [ rewrite (bind_call_ok f ev k w a w' E)
      | rewrite (bind_call_err f ev k w e w' E) ];
      cbn [out_res out_world out_trace]
  end.

(* ===================================================================== *)
(** ** The package loop *)
(* ===================================================================== *)

Section loop_facts.
Context {W : Type} `{C : Collaborators W}.

Lemma with_Layers_append d l m :
  with_Layers (Manifest.Layers (append_Layer d m) ++ l) (append_Layer d m)
  = with_Layers (Manifest.Layers m ++ d :: l) m.
Proof. unfold with_Layers, append_Layer; cbn. by rewrite <- app_assoc. Qed.

Lemma pushPackages_run p pkgs : ∀ i cfg m (w : W),
  loop_run p pkgs i cfg m
    (out_res (pushPackages p pkgs i cfg m w))
    (out_trace (pushPackages p pkgs i cfg m w)).
Proof.
  induction pkgs as [| pkg rest IH]; intros i cfg m w.
  - cbn. replace m with (with_Layers (Manifest.Layers m ++ map ans_desc []) m)
      at 2 by (destruct m; cbn; by rewrite app_nil_r).
    by apply (loop_done p [] i cfg m []).
  - cbn [pushPackages]. fold (pkgUrl pkg).
    step_call src e w1;
      [| apply (loop_failed p _ i cfg m [] pkg rest [] e _);
         [done | done | constructor]].
    step_call mf e w2;
      [| apply (loop_failed p _ i cfg m [] pkg rest [] e _);
         [done | done | constructor]].
    step_call d e w3;
      [| apply (loop_failed p _ i cfg m [] pkg rest [] e _);
         [done | done | constructor]].
    set (cfg' := set_package mf i (set_source src cfg)).
    destruct (IH (S i) cfg' (append_Layer d m) w3)
      as [ans Hlen | done pkg' rest' ans e tail Hpk Hlen Hfail].
    + rewrite with_Layers_append.
      apply (loop_done p (pkg :: rest) i cfg m
               ({| ans_src := src; ans_root := mf; ans_desc := d |} :: ans)).
      cbn. by rewrite Hlen.
    + apply (loop_failed p (pkg :: rest) i cfg m (pkg :: done) pkg' rest'
               ({| ans_src := src; ans_root := mf; ans_desc := d |} :: ans)
               e tail); [by rewrite Hpk | cbn; by rewrite Hlen | done].
Qed.

End loop_facts.

(* ===================================================================== *)
(** ** Every run of [create] has one of the shapes *)
(* ===================================================================== *)

Section create_facts.
Context {W : Type} `{C : Collaborators W}.

Lemma pushSignature_run dst signature m (w : W) :
  (∃ e, 0 < length signature
        ∧ out_res (pushSignature dst signature m w) = Err e
        ∧ out_trace (pushSignature dst signature m w)
          = [EvPushLayer dst signature ZarfLayerMediaTypeBlob (Err e)])
  ∨ (∃ sd, signature_pushed signature sd
           ∧ out_res (pushSignature dst signature m w)
             = Ok (match sd with
                   | Some s => append_Layer (title BundleYAMLSignature s) m
                   | None => m
                   end)
           ∧ out_trace (pushSignature dst signature m w)
             = signature_events signature dst sd).
Proof.
  unfold pushSignature. destruct (decide (0 < length signature)) as [Hs | Hs].
  - step_call s e w'.
    + right. exists (Some s). by cbn.
    + left. by exists e.
  - right. exists None. by cbn.
Qed.

Lemma create_run_trace r signature res tr tr' :
  create_run r signature res tr → tr = tr' → create_run r signature res tr'.
Proof. by intros H <-. Qed.

(** Closes a case of [create_steps_run]: the constructor, then the two
    traces are the same list. *)
Ltac shape c :=
  eapply create_run_trace;
  [ apply c; done
  | unfold layered_events, packaged_events, bound_events, signature_events;
    repeat (rewrite <- ?app_assoc; cbn [app]); done ].

Lemma create_steps_run r signature (w : W) :
  create_run r signature
    (out_res (create_steps r signature w))
    (out_trace (create_steps r signature w)).
Proof.
  unfold create_steps. fold platform.
  step_call ref e w1; [| constructor].
  step_call dst e w2; [| constructor].
  destruct (decide (Architecture (Metadata (bundle r)) = "")) as [Ha | Ha].
  { cbn. by apply run_no_architecture. }
  fold (pusherConfig0 r dst).
  pose proof (pushPackages_run platform (Packages (bundle r)) 0
                (pusherConfig0 r dst) zero_Manifest w2) as Hloop.
  destruct (out_res (pushPackages platform (Packages (bundle r)) 0
                       (pusherConfig0 r dst) zero_Manifest w2))
    as [m1 | e] eqn:Eloop.
  2: { rewrite (bind_err _ _ _ _ Eloop). cbn [out_res out_trace].
       inversion Hloop as [| done pkg rest ans e' tail Hpk Hlen Hf He Htr].
       by apply (run_package_failed r signature ref dst done pkg rest ans). }
  rewrite (bind_ok _ _ _ _ Eloop). cbn [out_res out_trace].
  inversion Hloop as [ans Hlen Hm Htr |]; subst m1. clear Hloop.
  cbn [Manifest.Layers zero_Manifest app] in *.
  set (w3 := out_world _).
  destruct (Marshal (bundle r)) as [bytes | e] eqn:Emar.
  2: { rewrite (bind_err (lift (Err e)) _ w3 e) by done.
       cbn [out_res out_trace lift]. rewrite app_nil_r.
       shape (run_marshal_failed r signature ref dst ans e). }
  rewrite (bind_ok (lift (Ok bytes)) _ w3 bytes) by done.
  cbn [out_res out_world out_trace lift app].
  step_call d e w4.
  2: shape (run_metadata_failed r signature ref dst ans bytes e).
  fold (title BundleYAML d).
  set (m2 := append_Layer _ _).
  destruct (pushSignature_run dst signature m2 w4)
    as [(e & Hs & Eres & Etr) | (sd & Hs & Eres & Etr)].
  { rewrite (bind_err _ _ _ _ Eres). cbn [out_res out_trace]. rewrite Etr.
    shape (run_signature_failed r signature ref dst ans bytes d e). }
  rewrite (bind_ok _ _ _ _ Eres). cbn [out_res out_trace]. rewrite Etr.
  set (w5 := out_world _).
  step_call cd e w6.
  2: shape (run_config_failed r signature ref dst ans bytes d sd e).
  step_call oidx e w7.
  2: shape (run_index_failed r signature ref dst ans bytes d sd cd e).
  set (m3 := finish_Manifest _ _ _ _).
  assert (m3 = root_manifest r ans d sd cd) as ->.
  { unfold m3, m2, finish_Manifest, root_manifest, root_layers.
    destruct sd; cbn; [by rewrite <- app_assoc | done]. }
  step_call rd e w8.
  - unfold UpdateIndex.
    destruct (pushIndex dst (bundle r) (updated_index oidx dst rd) w8)
      as [ri w9] eqn:Eidx.
    rewrite (call_run _ _ _ _ _ Eidx). cbn [out_res out_trace].
    eapply create_run_trace.
    + apply (run_published r signature ref dst ans bytes d sd cd oidx);
        [done .. |]. apply (publish_manifest_pushed r dst oidx _ rd ri).
    + unfold layered_events, packaged_events, bound_events.
      repeat (rewrite <- ?app_assoc; cbn [app]). done.
  - eapply create_run_trace.
    + apply (run_published r signature ref dst ans bytes d sd cd oidx);
        [done .. |]. apply (publish_manifest_failed r dst oidx _ e).
    + unfold layered_events, packaged_events, bound_events.
      repeat (rewrite <- ?app_assoc; cbn [app]). done.
Qed.

End create_facts.

(* ===================================================================== *)
(** ** Facts about traces *)
(* ===================================================================== *)

(** An event with property [P] that sits behind a prefix free of [P]. *)
Lemma prefix_decomp {A} (P : A → Prop) (l1 : list A) : ∀ l2 pre e post,
  Forall (λ x, ¬ P x) l1 →
  l1 ++ l2 = pre ++ e :: post →
  P e →
  ∃ pre', pre = l1 ++ pre' ∧ l2 = pre' ++ e :: post.
Proof.
  induction l1 as [| a l1 IH]; intros l2 pre e post Hno Heq HP.
  - by exists pre.
  - apply Forall_cons in Hno as [Ha Hno].
    destruct pre as [| b pre]; cbn in Heq.
    + injection Heq as -> _. contradiction.
    + injection Heq as -> Heq.
      destruct (IH _ _ _ _ Hno Heq HP) as (pre' & -> & ->). by exists pre'.
Qed.

Lemma Forall_filter_nil {A} (P : A → Prop) `{∀ x, Decision (P x)} l :
  Forall (λ x, ¬ P x) l → filter P l = [].
Proof.
  induction 1 as [| x l Hx _ IH]; [done |].
  by rewrite filter_cons_False.
Qed.

Section pkg_events_facts.
Variables (p : Platform.t).

Lemma pkg_events_ok pkgs : ∀ ans i cfg,
  Forall (λ e, ev_error e = None) (pkg_events p pkgs ans i cfg).
Proof.
  induction pkgs as [| pkg pkgs IH]; intros [| a ans] i cfg; cbn;
    repeat constructor. apply IH.
Qed.

Lemma pkg_events_kind pkgs : ∀ ans i cfg,
  Forall (λ e, is_package_step e = true) (pkg_events p pkgs ans i cfg).
Proof.
  induction pkgs as [| pkg pkgs IH]; intros [| a ans] i cfg; cbn;
    repeat constructor. apply IH.
Qed.

Lemma pkg_events_published pkgs : ∀ ans i cfg,
  published (pkg_events p pkgs ans i cfg) = zip pkgs (map ans_desc ans).
Proof.
  induction pkgs as [| pkg pkgs IH]; intros [| a ans] i cfg; cbn; try done.
  f_equal. apply IH.
Qed.


Lemma failing_step_kind pkg e tail :
  failing_step p pkg e tail → Forall (λ x, is_package_step x = true) tail.
Proof. destruct 1; repeat constructor. Qed.

End pkg_events_facts.

Section shape_facts.
Context {W : Type} `{C : Collaborators W}.
Variables (r : RemoteBundle) (signature : list Byte.byte).

Lemma packaged_events_ok ref dst ans :
  Forall (λ e, ev_error e = None) (packaged_events r ref dst ans).
Proof.
  unfold packaged_events. apply Forall_app. split.
  - by repeat constructor.
  - apply pkg_events_ok.
Qed.

Lemma layered_events_ok ref dst ans bytes d sd :
  Forall (λ e, ev_error e = None)
    (layered_events r signature ref dst ans bytes d sd).
Proof.
  unfold layered_events. apply Forall_app. split.
  - apply packaged_events_ok.
  - destruct sd; by repeat constructor.
Qed.

Lemma packaged_events_kind ref dst ans :
  Forall (λ e, is_assembly_step e = false) (packaged_events r ref dst ans).
Proof.
  unfold packaged_events. apply Forall_app. split.
  - by repeat constructor.
  - eapply Forall_impl; [apply pkg_events_kind |].
    by intros []; cbn.
Qed.

Lemma layered_events_kind ref dst ans bytes d sd :
  Forall (λ e, is_publication_step e = false)
    (layered_events r signature ref dst ans bytes d sd).
Proof.
  unfold layered_events. apply Forall_app. split.
  - eapply Forall_impl; [apply packaged_events_kind |].
    by intros []; cbn.
  - destruct sd; by repeat constructor.
Qed.

Lemma calls_of_none k tr :
  Forall (λ e, ev_kind e ≠ k) tr → calls_of k tr = [].
Proof. apply (Forall_filter_nil (λ e, ev_kind e = k)). Qed.

Lemma layered_events_calls k ref dst ans bytes d sd :
  k ∈ [KPushConfig; KGetIndex; KPushManifest; KPushIndex] →
  calls_of k (layered_events r signature ref dst ans bytes d sd) = [].
Proof.
  intros Hk. apply calls_of_none.
  eapply Forall_impl; [apply layered_events_kind |].
  intros e He <-. unfold is_publication_step in He.
  by apply bool_decide_eq_false_1 in He.
Qed.

Lemma packaged_events_published ref dst ans :
  published (packaged_events r ref dst ans)
  = zip (Packages (bundle r)) (map ans_desc ans).
Proof.
  unfold packaged_events, published. rewrite omap_app. cbn.
  apply pkg_events_published.
Qed.


End shape_facts.

(* ===================================================================== *)
(** ** The receiver and the destination prefix *)
(* ===================================================================== *)

Lemma prefix_append (s t : string) : String.prefix s (s +:+ t) = true.
Proof.
  induction s as [| a s IH]; simpl.
  - by destruct t.
  - destruct (Ascii.ascii_dec a a) as [_ | Hne]; [apply IH | by destruct Hne].
Qed.

Lemma EnsureOCIPrefix_scheme source :
  has_OCI_scheme (EnsureOCIPrefix source) = true.
Proof.
  unfold EnsureOCIPrefix. destruct (has_OCI_scheme source) eqn:E; [done |].
  apply prefix_append.
Qed.

Lemma EnsureOCIPrefix_idempotent source :
  EnsureOCIPrefix (EnsureOCIPrefix source) = EnsureOCIPrefix source.
Proof.
  unfold EnsureOCIPrefix at 1. by rewrite EnsureOCIPrefix_scheme.
Qed.

(** A run of [create] on [r] is a run of its steps on the receiver with
    the normalized output. *)
Lemma create_run_of {W : Type} `{C : Collaborators W} r signature (w : W) :
  create_run (set_output (EnsureOCIPrefix (output r)) r) signature
    (out_res (create r signature w).2)
    (out_trace (create r signature w).2).
Proof. apply create_steps_run. Qed.

(** Proves [Forall P tr] for the trace of a shape, given that [P] holds of
    the events of the package loop: [tac] turns [is_package_step e = true]
    into [P e]. *)
Ltac forall_events tac :=
  unfold layered_events, packaged_events, bound_events;
  repeat first
    [ apply Forall_nil
    | apply Forall_cons; split
    | apply Forall_app; split
    | eapply Forall_impl; [apply pkg_events_kind | tac]
    | eapply Forall_impl; [eapply failing_step_kind; eassumption | tac]
    | match goal with
      | |- Forall _ (signature_events _ _ ?sd) => destruct sd; cbn
      end
    | done ].

Section receiver.
Context {W : Type} `{C : Collaborators W}.

(** Every run starts with the resolution of the reference, and resolves
    only once. *)
Lemma create_run_starts r signature res tr :
  create_run r signature res tr →
  ∃ res0 rest,
    tr = EvResolve (output r) (Metadata (bundle r)) res0 :: rest
    ∧ Forall (λ e, ev_kind e ≠ KResolve) rest.
Proof.
  destruct 1 as [ | | | | | | | | | ? ? ? ? ? ? ? ? ? ? ? ? ? ? Hp];
    try solve [eexists _, _; split; [reflexivity |];
               forall_events ltac:(by intros []; cbn)].
  destruct Hp; eexists _, _; (split; [reflexivity |]);
    forall_events ltac:(by intros []; cbn).
Qed.

End receiver.

(* ===================================================================== *)
(** ** The architecture check *)
(* ===================================================================== *)

(** C2, as stated, fails: on a bundle without architecture [create]
    resolves the reference and binds the destination client before it
    checks the architecture. Against the registry double the bind is made
    (and succeeds), so the run is not free of network calls. *)
Lemma create_binds_before_architecture_check :
  ¬ (Architecture (Metadata (bundle (Double.remote "" "localhost:5000"))) = "" →
     out_res (create (Double.remote "" "localhost:5000") Double.sig
                (Double.fresh 100)).2 = Err arch_required
     ∧ no_network
         (out_trace (create (Double.remote "" "localhost:5000") Double.sig
                       (Double.fresh 100)).2)).
Proof.
  intros H. destruct (H eq_refl) as [_ Hnet].
  unfold no_network in Hnet.
  apply Forall_cons in Hnet as [_ Hnet].
  apply Forall_cons in Hnet as [Hbind _].
  discriminate Hbind.
Qed.

(** C2, amended: on a bundle without architecture [create] fetches nothing
    and pushes nothing. It resolves the destination reference and binds
    the destination client; if one of the two fails it returns that error,
    otherwise it returns the error that the architecture is required. *)
Theorem create_without_architecture {W : Type} `{C : Collaborators W}
  r signature (w : W) :
  Architecture (Metadata (bundle r)) = "" →
  stops_at_architecture_check (EnsureOCIPrefix (output r))
    (Metadata (bundle r))
    (out_res (create r signature w).2)
    (out_trace (create r signature w).2).
Proof.
  intros Ha. unfold stops_at_architecture_check.
  destruct (create_run_of r signature w); cbn in *; try congruence.
  - left. by eexists.
  - right; left. by eexists _, _.
  - right; right. by eexists _, _.
Qed.

Lemma create_without_architecture_witness :
  Architecture (Metadata (bundle (Double.remote "" "localhost:5000"))) = ""
  ∧ stops_at_architecture_check
      (EnsureOCIPrefix (output (Double.remote "" "localhost:5000")))
      (Metadata (bundle (Double.remote "" "localhost:5000")))
      (out_res (create (Double.remote "" "localhost:5000") Double.sig
                  (Double.fresh 100)).2)
      (out_trace (create (Double.remote "" "localhost:5000") Double.sig
                    (Double.fresh 100)).2).
Proof.
  split; [reflexivity |].
  apply (create_without_architecture (Double.remote "" "localhost:5000")).
  reflexivity.
Defined.

(* ===================================================================== *)
(** ** The destination prefix and the receiver *)
(* ===================================================================== *)

(** C8: whatever the destination prefix, the one call to reference
    resolution is the first call of [create] and receives the prefix
    normalized to an explicit OCI-scheme address, together with the
    metadata of the bundle. *)
Theorem create_resolves_OCI_address {W : Type} `{C : Collaborators W}
  r signature (w : W) :
  ∃ res rest,
    out_trace (create r signature w).2
    = EvResolve (EnsureOCIPrefix (output r)) (Metadata (bundle r)) res :: rest
    ∧ calls_of KResolve rest = []
    ∧ has_OCI_scheme (EnsureOCIPrefix (output r)) = true.
Proof.
  destruct (create_run_starts _ _ _ _ (create_run_of r signature w))
    as (res & rest & Htr & Hrest).
  exists res, rest. split; [exact Htr |]. split.
  - by apply calls_of_none.
  - apply EnsureOCIPrefix_scheme.
Qed.

(* ===================================================================== *)
(** ** The push of the root manifest *)
(* ===================================================================== *)

Section manifest_push.
Context {W : Type} `{C : Collaborators W}.



End manifest_push.

(* ===================================================================== *)
(** ** The root manifest *)
(* ===================================================================== *)







(** A successful run, in full. *)
Lemma create_run_ok {W : Type} `{C : Collaborators W} r signature tr :
  create_run r signature (Ok tt) tr →
  ∃ ref dst ans bytes d sd cd oidx rd,
    length ans = length (Packages (bundle r))
    ∧ Marshal (bundle r) = Ok bytes
    ∧ signature_pushed signature sd
    ∧ tr = layered_events r signature ref dst ans bytes d sd
           ++ [EvPushConfig dst (Metadata (bundle r)) (Build (bundle r))
                 (Ok cd);
               EvGetIndex dst (Reference dst) (Ok oidx);
               EvPushManifest (root_manifest r ans d sd cd)
                 MediaTypeImageManifest dst (Ok rd);
               EvPushIndex dst (bundle r) (updated_index oidx dst rd)
                 (Ok tt)].
Proof.
  inversion 1
    as [ | | | | | | | |
        | ref dst ans bytes d sd cd oidx res tl Ha Hlen Hm Hs Hp Hres Htr].
  inversion Hp as [| rd ri Hri Htl]. subst.
  by exists ref, dst, ans, bytes, d, sd, cd, oidx, rd.
Qed.

(** The calls of the kinds made after the layers, in a successful run. *)
Lemma calls_of_published {W : Type} `{C : Collaborators W}
  r signature ref dst ans bytes d sd (evs : list Event) k :
  k ∈ [KPushConfig; KGetIndex; KPushManifest; KPushIndex] →
  calls_of k (layered_events r signature ref dst ans bytes d sd ++ evs)
  = calls_of k evs.
Proof.
  intros Hk. unfold calls_of at 1. rewrite filter_app.
  fold (calls_of k (layered_events r signature ref dst ans bytes d sd)).
  by rewrite layered_events_calls.
Qed.

(** C6: in a successful run of [create] the root manifest pushed has
    schema version 2, its config is the descriptor returned by the push
    of the config blob made from the metadata and the build information of
    the bundle, and its annotations are the annotations derived from the
    metadata of the bundle. *)
Theorem create_root_manifest_assigned {W : Type} `{C : Collaborators W}
  r signature (w : W) :
  out_res (create r signature w).2 = Ok tt →
  root_manifest_assigned (bundle r) (out_trace (create r signature w).2).
Proof.
  intros Hok. pose proof (create_run_of r signature w) as Hrun.
  rewrite Hok in Hrun.
  destruct (create_run_ok _ _ _ Hrun)
    as (ref & dst & ans & bytes & d & sd & cd & oidx & rd
        & Hlen & Hm & Hs & ->).
  cbn [bundle set_output] in *.
  exists (root_manifest (set_output (EnsureOCIPrefix (output r)) r)
            ans d sd cd), dst, rd, cd.
  rewrite (calls_of_published _ _ _ _ _ _ _ _ _ KPushManifest)
    by (by repeat constructor).
  rewrite (calls_of_published _ _ _ _ _ _ _ _ _ KPushConfig)
    by (by repeat constructor).
  by repeat split.
Qed.

Lemma create_root_manifest_assigned_witness :
  out_res (create (Double.remote "amd64" "localhost:5000") Double.sig
             (Double.fresh 100)).2 = Ok tt
  ∧ root_manifest_assigned (bundle (Double.remote "amd64" "localhost:5000"))
      (out_trace (create (Double.remote "amd64" "localhost:5000") Double.sig
                    (Double.fresh 100)).2).
Proof.
  refine ((λ H, conj H (create_root_manifest_assigned _ _ _ H)) _).
  vm_compute. reflexivity.
Defined.

(** C7: in a successful run of [create] the layer behind the package
    layers, the bundle-metadata layer, carries exactly one annotation, the
    OCI title with the bundle-metadata filename as value, and when the
    signature is not empty the layer after it carries the OCI title with
    the signature filename as value. *)
Theorem create_titles_tail_layers {W : Type} `{C : Collaborators W}
  r signature (w : W) :
  out_res (create r signature w).2 = Ok tt →
  tail_layers_titled (bundle r) signature
    (out_trace (create r signature w).2).
Proof.
  intros Hok. pose proof (create_run_of r signature w) as Hrun.
  rewrite Hok in Hrun.
  destruct (create_run_ok _ _ _ Hrun)
    as (ref & dst & ans & bytes & d & sd & cd & oidx & rd
        & Hlen & Hm & Hs & ->).
  cbn [bundle set_output] in *.
  exists (root_manifest (set_output (EnsureOCIPrefix (output r)) r)
            ans d sd cd), dst, rd.
  rewrite (calls_of_published _ _ _ _ _ _ _ _ _ KPushManifest)
    by (by repeat constructor).
  split; [done |]. cbn [Manifest.Layers root_manifest]. unfold root_layers.
  split.
  - exists (title BundleYAML d). split.
    + apply list_lookup_middle. by rewrite length_map.
    + unfold title, set_Annotations. cbn [Descriptor.Annotations].
      split; [done |]. split; [apply map_size_singleton |].
      apply lookup_singleton_eq.
  - intros Hsig. destruct sd as [s |]; [| done].
    exists (title BundleYAMLSignature s). split.
    + rewrite cons_middle, app_assoc. apply list_lookup_middle.
      rewrite length_app, length_map. cbn [length]. lia.
    + unfold title, set_Annotations. cbn [Descriptor.Annotations].
      split; [done |]. apply lookup_singleton_eq.
Qed.

Lemma create_titles_tail_layers_witness :
  out_res (create (Double.remote "amd64" "localhost:5000") Double.sig
             (Double.fresh 100)).2 = Ok tt
  ∧ tail_layers_titled (bundle (Double.remote "amd64" "localhost:5000"))
      Double.sig
      (out_trace (create (Double.remote "amd64" "localhost:5000") Double.sig
                    (Double.fresh 100)).2).
Proof.
  refine ((λ H, conj H (create_titles_tail_layers _ _ _ H)) _).
  vm_compute. reflexivity.
Defined.

(* ===================================================================== *)
(** ** The index *)
(* ===================================================================== *)

Section upsert_facts.
Variables (p : Platform.t) (d : Descriptor.t).
Hypothesis d_for_p : entry_for p d.

Lemma upsert_elem l : d ∈ upsert p d l.
Proof.
  induction l as [| e l IH]; cbn [upsert]; [apply list_elem_of_here |].
  case_decide; [apply list_elem_of_here | by apply list_elem_of_further].
Qed.

Lemma upsert_others l :
  entries_not_for p (upsert p d l) = entries_not_for p l.
Proof.
  unfold entries_not_for.
  induction l as [| e l IH]; cbn [upsert].
  - by rewrite filter_cons_False by (by intros H; apply H).
  - case_decide as He.
    + rewrite !filter_cons_False; [done | by intros H; apply H ..].
    + rewrite !filter_cons_True by done. by rewrite IH.
Qed.

Lemma upsert_fresh l : entries_for p l = [] → upsert p d l = l ++ [d].
Proof.
  unfold entries_for.
  induction l as [| e l IH]; cbn [upsert]; [done |].
  rewrite filter_cons. case_decide; [done |].
  intros Hl. by rewrite IH.
Qed.

Lemma upsert_length l :
  entries_for p l ≠ [] → length (upsert p d l) = length l.
Proof.
  unfold entries_for.
  induction l as [| e l IH]; cbn [upsert]; [done |].
  rewrite filter_cons. case_decide; [done |].
  intros Hl. cbn. by rewrite IH.
Qed.

Lemma upsert_entries_for l :
  entries_for p (upsert p d l) = d :: tail (entries_for p l).
Proof.
  unfold entries_for.
  induction l as [| e l IH]; cbn [upsert].
  - by rewrite filter_cons_True.
  - case_decide as He.
    + by rewrite !filter_cons_True.
    + by rewrite !filter_cons_False.
Qed.

Lemma upsert_entries_other q l :
  q ≠ p → entries_for q (upsert p d l) = entries_for q l.
Proof.
  intros Hq. unfold entries_for.
  assert (∀ x, entry_for p x → ¬ entry_for q x) as Hpq.
  { unfold entry_for. intros x Hx Hx'. congruence. }
  induction l as [| e l IH]; cbn [upsert].
  - by rewrite filter_cons_False by by apply Hpq.
  - case_decide as He.
    + rewrite !filter_cons_False; [done | by apply Hpq ..].
    + rewrite !filter_cons. case_decide; by rewrite IH.
Qed.

Lemma upsert_unique l :
  unique_platforms l →
  unique_platforms (upsert p d l) ∧ entries_for p (upsert p d l) = [d].
Proof.
  intros Hu.
  assert (entries_for p (upsert p d l) = [d]) as Hp.
  { rewrite upsert_entries_for. specialize (Hu p).
    by destruct (entries_for p l) as [| x [| y t]]; cbn in *; [| | lia]. }
  split; [| done].
  intros q. destruct (decide (q = p)) as [-> | Hq].
  - by rewrite Hp.
  - by rewrite upsert_entries_other.
Qed.

End upsert_facts.

(** C4: after a successful run of [create] the index that was pushed is
    the index that was fetched with the entry of the current platform
    pointing at the new root manifest: an entry found for that platform is
    replaced and none is added, the entries of the other platforms are
    kept as they were, and in an index with at most one entry per platform
    the entry of the current platform is the only one for it. *)
Theorem create_upserts_index {W : Type} `{C : Collaborators W}
  r signature (w : W) :
  out_res (create r signature w).2 = Ok tt →
  index_upserted (out_trace (create r signature w).2).
Proof.
  intros Hok. pose proof (create_run_of r signature w) as Hrun.
  rewrite Hok in Hrun.
  destruct (create_run_ok _ _ _ Hrun)
    as (ref & dst & ans & bytes & d & sd & cd & oidx & rd
        & Hlen & Hm & Hs & ->).
  cbn [bundle set_output] in *.
  set (r' := set_output (EnsureOCIPrefix (output r)) r).
  exists (root_manifest r' ans d sd cd), dst, rd, oidx, (bundle r),
    (updated_index oidx dst rd).
  rewrite (calls_of_published _ _ _ _ _ _ _ _ _ KGetIndex)
    by (by repeat constructor).
  rewrite (calls_of_published _ _ _ _ _ _ _ _ _ KPushManifest)
    by (by repeat constructor).
  rewrite (calls_of_published _ _ _ _ _ _ _ _ _ KPushIndex)
    by (by repeat constructor).
  do 3 (split; [done |]).
  split.
  { rewrite last_app. done. }
  cbn zeta. unfold updated_index. cbn [Index.Manifests].
  assert (entry_for (TargetPlatform dst)
            (set_Platform (Some (TargetPlatform dst)) rd)) as He by done.
  split; [by apply upsert_elem |].
  split; [by apply upsert_others |].
  split; [by apply upsert_fresh |].
  split; [by apply upsert_length |].
  by apply upsert_unique.
Qed.

Lemma create_upserts_index_witness :
  out_res (create (Double.remote "amd64" "localhost:5000") Double.sig
             (Double.seeded 100)).2 = Ok tt
  ∧ index_upserted
      (out_trace (create (Double.remote "amd64" "localhost:5000") Double.sig
                    (Double.seeded 100)).2).
Proof.
  refine ((λ H, conj H (create_upserts_index _ _ _ H)) _).
  vm_compute. reflexivity.
Defined.

(* ===================================================================== *)
(** ** Failures in the package loop *)
(* ===================================================================== *)

(** Proves that no call of a list of successful calls answered with the
    error [err]. *)
Ltac ok_events :=
  unfold layered_events, packaged_events, bound_events;
  repeat first
    [ apply Forall_nil
    | apply Forall_cons; split
    | apply Forall_app; split
    | eapply Forall_impl;
      [apply pkg_events_ok | by intros ? ->]
    | match goal with
      | |- Forall _ (signature_events _ _ ?sd) => destruct sd; cbn
      end
    | done ].

Section package_failure.
Context {W : Type} `{C : Collaborators W}.

(** Cuts a trace [A ++ B] whose part [A] is free of the error [err] at
    a call that answered [err]: the call is in [B]. *)
Ltac cut_at Heq He pre' HB :=
  match type of Heq with
  | ?A ++ ?B = ?pre ++ ?e :: ?post =>
      let HA := fresh "HA" in
      assert (Forall (λ x, ¬ ev_error x = ev_error e) A) as HA
        by (rewrite He; ok_events);
      destruct (prefix_decomp (λ x, ev_error x = ev_error e)
                  A B pre e post HA Heq eq_refl) as (pre' & -> & HB);
      clear HA Heq
  end.

Lemma create_run_package_failure r signature res tr pre e post err :
  create_run r signature res tr →
  tr = pre ++ e :: post →
  is_package_step e = true →
  ev_error e = Some err →
  res = Err err ∧ post = []
  ∧ Forall (λ x, is_assembly_step x = false) tr.
Proof.
  intros Hrun Heq HP He.
  destruct Hrun
    as [ e0 | ref e0 | ref dst Ha
       | ref dst done pkg rest ans tail e0 Ha Hpk Hlen Hf
       | ref dst ans e0 Ha Hlen Hm
       | ref dst ans bytes e0 Ha Hlen Hm
       | ref dst ans bytes d e0 Ha Hlen Hm Hs
       | ref dst ans bytes d sd e0 Ha Hlen Hm Hs
       | ref dst ans bytes d sd cd e0 Ha Hlen Hm Hs
       | ref dst ans bytes d sd cd oidx res tl Ha Hlen Hm Hs Hp ].
  - destruct pre as [| x [| y pre]]; cbn in Heq; simplify_eq;
      cbn in HP; try done; by destruct pre.
  - destruct pre as [| x [| y [| z pre]]]; cbn in Heq; simplify_eq;
      cbn in HP; try done; try (by destruct pre).
    cbn in He. simplify_eq. repeat split. by repeat constructor.
  - rewrite <- (app_nil_r (bound_events _ _ _)) in Heq.
    cut_at Heq He pre' HB. by destruct pre'.
  - rewrite app_assoc in Heq. cut_at Heq He pre' HB.
    assert (post = [] ∧ e0 = err) as (-> & ->).
    { destruct Hf;
        destruct pre' as [| x [| y [| z pre']]]; cbn in HB; simplify_eq;
        cbn in He; simplify_eq; try done; by destruct pre'. }
    repeat split.
    forall_events ltac:(by intros []; cbn).
  - rewrite <- (app_nil_r (packaged_events _ _ _ _)) in Heq.
    cut_at Heq He pre' HB. by destruct pre'.
  - cut_at Heq He pre' HB.
    destruct pre' as [| x [| y pre']]; cbn in HB; simplify_eq;
      cbn in HP; try done; by destruct pre'.
  - cut_at Heq He pre' HB.
    destruct pre' as [| x [| y pre']]; cbn in HB; simplify_eq;
      cbn in HP; try done; by destruct pre'.
  - cut_at Heq He pre' HB.
    destruct pre' as [| x [| y pre']]; cbn in HB; simplify_eq;
      cbn in HP; try done; by destruct pre'.
  - cut_at Heq He pre' HB.
    destruct pre' as [| x [| y [| z pre']]]; cbn in HB; simplify_eq;
      cbn in HP; try done; by destruct pre'.
  - cut_at Heq He pre' HB.
    destruct Hp;
      destruct pre' as [| x [| y [| z [| u [| v pre']]]]]; cbn in HB;
      simplify_eq; cbn in HP; try done; by destruct pre'.
Qed.

End package_failure.

(** C3: when binding a client, fetching the root manifest of a source or
    publishing a package answers with an error, [create] returns that
    error and the failed call is its last call: no further package is
    fetched or published, and no blob, no config, no root manifest and no
    index is pushed (the index is not even fetched). Every call before the
    failed one had succeeded. *)
Theorem create_aborts_on_package_failure {W : Type} `{C : Collaborators W}
  r signature (w : W) k e err :
  out_trace (create r signature w).2 !! k = Some e →
  is_package_step e = true →
  ev_error e = Some err →
  out_res (create r signature w).2 = Err err
  ∧ S k = length (out_trace (create r signature w).2)
  ∧ Forall (λ x, is_assembly_step x = false)
      (out_trace (create r signature w).2)
  ∧ calls_of KPushIndex (out_trace (create r signature w).2) = [].
Proof.
  intros Hk HP He.
  pose proof (lookup_lt_Some _ _ _ Hk) as Hlt.
  pose proof (take_drop_middle _ _ _ Hk) as Hcut. symmetry in Hcut.
  destruct (create_run_package_failure _ _ _ _ _ _ _ _
              (create_run_of r signature w) Hcut HP He)
    as (Hres & Hpost & Hall).
  split; [done |]. split; [| split; [done |]].
  - apply (f_equal length) in Hpost. rewrite length_drop in Hpost.
    cbn [length] in Hpost. lia.
  - apply calls_of_none. eapply Forall_impl; [exact Hall |].
    by intros [] Hx.
Qed.

Lemma create_aborts_on_package_failure_witness :
  ∃ e err,
    out_trace (create (Double.remote "amd64" "localhost:5000") Double.sig
                 (Double.fresh 6)).2 !! 7 = Some e
    ∧ is_package_step e = true
    ∧ ev_error e = Some err
    ∧ out_res (create (Double.remote "amd64" "localhost:5000") Double.sig
                 (Double.fresh 6)).2 = Err err
    ∧ calls_of KPushIndex
        (out_trace (create (Double.remote "amd64" "localhost:5000")
                      Double.sig (Double.fresh 6)).2) = [].
Proof.
  remember (out_trace (create (Double.remote "amd64" "localhost:5000")
                         Double.sig (Double.fresh 6)).2 !! 7) as o eqn:Hk.
  pose proof Hk as Hk'. vm_compute in Hk'. rewrite Hk' in Hk |- *.
  symmetry in Hk.
  eexists _, _.
  split; [reflexivity |]. split; [reflexivity |]. split; [reflexivity |].
  pose proof (create_aborts_on_package_failure _ _ _ 7 _ _ Hk
                eq_refl eq_refl) as H.
  exact (conj (proj1 H) (proj2 (proj2 (proj2 H)))).
Defined.

(* ===================================================================== *)
(** ** The platform *)
(* ===================================================================== *)

Section every_call_facts.
Context {W : Type} (P : Event → Prop).

Lemma every_call_ret {A} (a : A) : every_call P (mret a : M W A).
Proof. intros w. constructor. Qed.

Lemma every_call_fail {A} e : every_call P (fail e : M W A).
Proof. intros w. constructor. Qed.

Lemma every_call_lift {A} (r : result A) : every_call P (lift r : M W A).
Proof. intros w. constructor. Qed.

Lemma every_call_call {A} (f : W → result A * W) ev :
  (∀ w, P (ev (f w).1)) → every_call P (call f ev).
Proof.
  intros H w. unfold call. specialize (H w).
  destruct (f w) as [res w']. by repeat constructor.
Qed.

Lemma every_call_bind {A B} (m : M W A) (k : A → M W B) :
  every_call P m → (∀ a, every_call P (k a)) → every_call P (m ≫= k).
Proof.
  intros Hm Hk w. unfold mbind, M_bind. specialize (Hm w).
  destruct (m w) as [[a | e] w1 t1]; [| done].
  specialize (Hk a w1). destruct (k a w1) as [res w2 t2].
  apply Forall_app. by split.
Qed.

End every_call_facts.

(** Closes a goal in which the calls of [Hin] hold no call of the kind
    that [Hno] excludes. *)
Ltac absent Hno Hin :=
  exfalso;
  match type of Hin with
  | _ ∈ ?t =>
      apply (Hno t); [forall_events ltac:(by intros []; cbn) | exact Hin]
  end.

Section platform_facts.
Context {W : Type} `{C : Collaborators W}.
Hypothesis binds : binds_as_asked.

Lemma bind_as_configured url :
  every_call bound_as_configured
    (call (NewOrasRemote url platform) (EvBind url platform)).
Proof.
  apply every_call_call. intros w. cbn. split; [done |].
  intros o Ho. destruct (NewOrasRemote url platform w) as [res w'] eqn:E.
  cbn in Ho. subst res. by apply (binds _ _ _ _ _ E).
Qed.

Lemma pushPackages_binds pkgs : ∀ i cfg m,
  every_call bound_as_configured (pushPackages platform pkgs i cfg m).
Proof.
  induction pkgs as [| pkg pkgs IH]; intros i cfg m; cbn [pushPackages].
  - apply every_call_ret.
  - apply every_call_bind; [apply bind_as_configured | intros src].
    apply every_call_bind; [by apply every_call_call | intros mf].
    apply every_call_bind; [by apply every_call_call | intros d].
    apply IH.
Qed.

Lemma create_steps_binds r signature :
  every_call bound_as_configured (create_steps r signature).
Proof.
  unfold create_steps. fold platform.
  apply every_call_bind; [by apply every_call_call | intros ref].
  apply every_call_bind; [apply bind_as_configured | intros dst].
  case_decide; [apply every_call_fail |].
  apply every_call_bind; [apply pushPackages_binds | intros m1].
  apply every_call_bind; [apply every_call_lift | intros bytes].
  apply every_call_bind; [by apply every_call_call | intros d].
  apply every_call_bind.
  { unfold pushSignature. case_decide; [| apply every_call_ret].
    apply every_call_bind; [by apply every_call_call | intros s].
    apply every_call_ret. }
  intros m2.
  apply every_call_bind; [by apply every_call_call | intros cd].
  apply every_call_bind; [by apply every_call_call | intros oidx].
  apply every_call_bind; [by apply every_call_call | intros rd].
  by apply every_call_call.
Qed.

(** A run in which the index is pushed. *)
Lemma create_run_index r signature res tr dst0 b idx res0 :
  create_run r signature res tr →
  EvPushIndex dst0 b idx res0 ∈ tr →
  ∃ ref rd oidx,
    EvBind ref platform (Ok dst0) ∈ tr
    ∧ idx = updated_index oidx dst0 rd.
Proof.
  intros Hrun Hin.
  assert (∀ t, Forall (λ x, ev_kind x ≠ KPushIndex) t →
               EvPushIndex dst0 b idx res0 ∈ t → False) as Hno.
  { intros t Ht Hx. rewrite Forall_forall in Ht. by apply (Ht _ Hx). }
  destruct Hrun
    as [ | | | | | | | |
       | ref dst ans bytes d sd cd oidx res tl Ha Hlen Hm Hs Hp ];
    try (by absent Hno Hin).
  apply elem_of_app in Hin as [Hin | Hin]; [by absent Hno Hin |].
  apply elem_of_app in Hin as [Hin | Hin]; [by absent Hno Hin |].
  destruct Hp as [e | rd ri]; [by absent Hno Hin |].
  apply elem_of_cons in Hin as [Hin | Hin]; [done |].
  apply elem_of_cons in Hin as [Hin | Hin]; [| by apply elem_of_nil in Hin].
  injection Hin as -> -> -> ->.
  exists ref, rd, oidx. split; [| done].
  unfold layered_events, packaged_events, bound_events.
  do 3 (apply elem_of_app; left).
  apply list_elem_of_further, list_elem_of_here.
Qed.

End platform_facts.

Section platform_requests.
Context {W : Type} `{C : Collaborators W}.

Lemma pushPackages_asks pkgs : ∀ i cfg m,
  every_call asks_configured (pushPackages platform pkgs i cfg m).
Proof.
  induction pkgs as [| pkg pkgs IH]; intros i cfg m; cbn [pushPackages].
  - apply every_call_ret.
  - apply every_call_bind; [by apply every_call_call | intros src].
    apply every_call_bind; [by apply every_call_call | intros mf].
    apply every_call_bind; [by apply every_call_call | intros d].
    apply IH.
Qed.

Lemma create_steps_asks r signature :
  every_call asks_configured (create_steps r signature).
Proof.
  unfold create_steps. fold platform.
  apply every_call_bind; [by apply every_call_call | intros ref].
  apply every_call_bind; [by apply every_call_call | intros dst].
  case_decide; [apply every_call_fail |].
  apply every_call_bind; [apply pushPackages_asks | intros m1].
  apply every_call_bind; [apply every_call_lift | intros bytes].
  apply every_call_bind; [by apply every_call_call | intros d].
  apply every_call_bind.
  { unfold pushSignature. case_decide; [| apply every_call_ret].
    apply every_call_bind; [by apply every_call_call | intros s].
    apply every_call_ret. }
  intros m2.
  apply every_call_bind; [by apply every_call_call | intros cd].
  apply every_call_bind; [by apply every_call_call | intros oidx].
  apply every_call_bind; [by apply every_call_call | intros rd].
  by apply every_call_call.
Qed.

End platform_requests.

(** X12. The platform asked for: every registry client that [create]
    binds, for the destination and for each source, is asked for with the
    platform made of the configured architecture and the multi-platform
    OS marker, whatever the architecture in the metadata of the bundle. *)
Theorem create_binds_configured_platform {W : Type} `{C : Collaborators W}
  r signature (w : W) :
  Forall asks_configured (out_trace (create r signature w).2)
  ∧ Forall (λ p, p = Platform.mk GetArch MultiOS)
      (bound_platforms (out_trace (create r signature w).2)).
Proof.
  pose proof (create_steps_asks
                (set_output (EnsureOCIPrefix (output r)) r) signature w)
    as Hall.
  change (create_steps _ _ w) with (create r signature w).2 in Hall.
  split; [done |].
  revert Hall. generalize (out_trace (create r signature w).2).
  induction 1 as [| e t He _ IH]; [constructor |].
  destruct e; cbn; try done. by constructor.
Qed.

(** X14. The clients obtained: if a successful bind returns a client
    bound to the platform it was asked for, every client [create] obtains
    is bound to the configured platform, and so is the client through
    which the index is updated. *)
Theorem create_clients_on_configured_platform
  {W : Type} `{C : Collaborators W} r signature (w : W) :
  binds_as_asked →
  Forall bound_as_configured (out_trace (create r signature w).2)
  ∧ ∀ dst b idx res,
      EvPushIndex dst b idx res ∈ out_trace (create r signature w).2 →
      TargetPlatform dst = Platform.mk GetArch MultiOS.
Proof.
  intros Hbinds.
  pose proof (create_steps_binds Hbinds
                (set_output (EnsureOCIPrefix (output r)) r) signature w)
    as Hall.
  change (create_steps _ _ w) with (create r signature w).2 in Hall.
  split; [done |].
  intros dst b idx res Hin.
  destruct (create_run_index _ _ _ _ _ _ _ _
              (create_run_of r signature w) Hin) as (ref & rd & oidx & Hb & _).
  rewrite Forall_forall in Hall. specialize (Hall _ Hb) as [_ Hdst].
  by apply Hdst.
Qed.

Lemma create_clients_on_configured_platform_witness :
  @binds_as_asked Double.World Double.collaborators
  ∧ Forall bound_as_configured
      (out_trace (create (Double.remote "amd64" "localhost:5000") Double.sig
                    (Double.fresh 100)).2).
Proof.
  assert (@binds_as_asked Double.World Double.collaborators) as Hb.
  { intros url p [n st] o w'. cbn. unfold Double.guarded. cbn.
    destruct n; intros [= <- _]; reflexivity. }
  split; [exact Hb |].
  exact (proj1 (create_clients_on_configured_platform
                  (Double.remote "amd64" "localhost:5000") Double.sig
                  (Double.fresh 100) Hb)).
Defined.

(* ===================================================================== *)
(** ** The receiver after the call *)
(* ===================================================================== *)

Section bundle_facts.
Context {W : Type} `{C : Collaborators W}.
Variable b : UDSBundle.

Lemma pushPackages_carries p pkgs : ∀ i cfg m,
  pkgs ⊆ Packages b →
  Bundle cfg = b →
  NumPkgs cfg = length (Packages b) →
  every_call (carries_bundle b) (pushPackages p pkgs i cfg m).
Proof.
  induction pkgs as [| pkg pkgs IH]; intros i cfg m Hsub Hb Hn;
    cbn [pushPackages].
  - apply every_call_ret.
  - apply every_call_bind; [by apply every_call_call | intros src].
    apply every_call_bind; [by apply every_call_call | intros mf].
    apply every_call_bind.
    + apply every_call_call. intros w. cbn. split; [| done].
      apply Hsub, list_elem_of_here.
    + intros d. apply IH; [| done ..].
      intros x Hx. by apply Hsub, list_elem_of_further.
Qed.

Lemma create_steps_carries r signature :
  bundle r = b →
  every_call (carries_bundle b) (create_steps r signature).
Proof.
  intros Hb. unfold create_steps. rewrite Hb.
  apply every_call_bind; [by apply every_call_call | intros ref].
  apply every_call_bind; [by apply every_call_call | intros dst].
  case_decide; [apply every_call_fail |].
  apply every_call_bind; [by apply pushPackages_carries | intros m1].
  apply every_call_bind; [apply every_call_lift | intros bytes].
  apply every_call_bind; [by apply every_call_call | intros d].
  apply every_call_bind.
  { unfold pushSignature. case_decide; [| apply every_call_ret].
    apply every_call_bind; [by apply every_call_call | intros s].
    apply every_call_ret. }
  intros m2.
  apply every_call_bind; [by apply every_call_call | intros cd].
  apply every_call_bind; [by apply every_call_call | intros oidx].
  apply every_call_bind; [by apply every_call_call | intros rd].
  by apply every_call_call.
Qed.

End bundle_facts.

(** C10: [create] overwrites the [output] field of its receiver with the
    normalized destination prefix, which carries the OCI scheme, whatever
    the result of the call, and a further call leaves [output] as it is.
    The bundle of the receiver, its package list and the other field are
    not changed: the receiver holds the same bundle after the call, and
    every collaborator that is handed the bundle during the call is handed
    it unchanged. *)
Theorem create_overwrites_output {W : Type} `{C : Collaborators W}
  r signature (w : W) :
  let r' := (create r signature w).1 in
  output r' = EnsureOCIPrefix (output r)
  ∧ has_OCI_scheme (output r') = true
  ∧ bundle r' = bundle r
  ∧ Packages (bundle r') = Packages (bundle r)
  ∧ tmpDstDir r' = tmpDstDir r
  ∧ Forall (carries_bundle (bundle r)) (out_trace (create r signature w).2)
  ∧ ∀ signature' w', output (create r' signature' w').1 = output r'.
Proof.
  cbn. repeat split.
  - apply EnsureOCIPrefix_scheme.
  - by apply (create_steps_carries (bundle r)).
  - intros _ _. apply EnsureOCIPrefix_idempotent.
Qed.

(* ===================================================================== *)
(** ** How a run ends *)
(* ===================================================================== *)

Section run_ends.
Context {W : Type} `{C : Collaborators W}.

(** A run ends with the one call that failed, or all its calls succeeded
    and it ends with success, at the architecture check or at the
    serialization of the bundle. *)
Lemma create_run_ends r signature res tr :
  create_run r signature res tr →
  (∃ oks f e,
     tr = oks ++ [f] ∧ Forall (λ x, ev_error x = None) oks
     ∧ ev_error f = Some e ∧ res = Err e)
  ∨ (Forall (λ x, ev_error x = None) tr
     ∧ ((res = Ok tt
         ∧ ∃ dst b idx, last tr = Some (EvPushIndex dst b idx (Ok tt)))
        ∨ (res = Err arch_required
           ∧ Architecture (Metadata (bundle r)) = ""
           ∧ ∃ ref dst, tr = bound_events r ref dst)
        ∨ (∃ e, res = Err e ∧ Marshal (bundle r) = Err e
                ∧ (published tr).*1 = Packages (bundle r)
                ∧ Forall (λ x, is_assembly_step x = false) tr))).
Proof.
  destruct 1
    as [ e0 | ref e0 | ref dst Ha
       | ref dst done pkg rest ans tail e0 Ha Hpk Hlen Hf
       | ref dst ans e0 Ha Hlen Hm
       | ref dst ans bytes e0 Ha Hlen Hm
       | ref dst ans bytes d e0 Ha Hlen Hm Hs
       | ref dst ans bytes d sd e0 Ha Hlen Hm Hs
       | ref dst ans bytes d sd cd e0 Ha Hlen Hm Hs
       | ref dst ans bytes d sd cd oidx res tl Ha Hlen Hm Hs Hp ].
  - left. exists [], (EvResolve (output r) (Metadata (bundle r)) (Err e0)), e0.
    by repeat split.
  - left. exists [EvResolve (output r) (Metadata (bundle r)) (Ok ref)],
      (EvBind ref platform (Err e0)), e0.
    repeat split; by repeat constructor.
  - right. split; [by repeat constructor |]. right; left.
    split; [done |]. split; [done |]. by exists ref, dst.
  - left. destruct Hf as [e1 | src e1 | src mf cfg e1].
    + eexists (bound_events r ref dst ++ pkg_events platform done ans 0 _),
        _, e1.
      split; [by rewrite <- app_assoc |]. split; [ok_events |]. by split.
    + eexists (bound_events r ref dst ++ pkg_events platform done ans 0 _
               ++ [EvBind (pkgUrl pkg) platform (Ok src)]), _, e1.
      split; [by rewrite <- !app_assoc |]. split; [ok_events |]. by split.
    + eexists (bound_events r ref dst ++ pkg_events platform done ans 0 _
               ++ [EvBind (pkgUrl pkg) platform (Ok src);
                   EvFetchRoot src (Ok mf)]), _, e1.
      split; [by rewrite <- !app_assoc |]. split; [ok_events |]. by split.
  - right. split; [apply packaged_events_ok |]. right; right.
    exists e0. split; [done |]. split; [done |]. split.
    + rewrite packaged_events_published. apply fst_zip.
      rewrite length_map. lia.
    + apply packaged_events_kind.
  - left. eexists _, _, e0. split; [reflexivity |].
    split; [apply packaged_events_ok | by split].
  - left. eexists _, _, e0. split; [reflexivity |].
    split; [apply layered_events_ok | by split].
  - left. eexists _, _, e0. split; [reflexivity |].
    split; [apply layered_events_ok | by split].
  - left. eexists (layered_events r signature ref dst ans bytes d sd ++ [_]),
      _, e0.
    split; [by rewrite <- app_assoc |].
    split; [| by split].
    apply Forall_app. split; [apply layered_events_ok | by repeat constructor].
  - destruct Hp as [e1 | rd [[] | e1]].
    + left. eexists (layered_events r signature ref dst ans bytes d sd
                     ++ [_; _]), _, e1.
      split; [by rewrite <- app_assoc |].
      split; [| by split].
      apply Forall_app.
      split; [apply layered_events_ok | by repeat constructor].
    + right. split.
      * apply Forall_app. split; [apply layered_events_ok |].
        by repeat constructor.
      * left. split; [done |]. eexists _, _, _.
        rewrite !last_app. reflexivity.
    + left. eexists (layered_events r signature ref dst ans bytes d sd
                     ++ [_; _; _]), _, e1.
      split; [by rewrite <- app_assoc |].
      split; [| by split].
      apply Forall_app.
      split; [apply layered_events_ok | by repeat constructor].
Qed.

End run_ends.

(** X1. Fail-fast: when any call of [create] answers with an error, that call
    is the last call of the run, every call before it succeeded, and
    [create] returns that very error. *)
Theorem create_fails_fast {W : Type} `{C : Collaborators W}
  r signature (w : W) k e err :
  out_trace (create r signature w).2 !! k = Some e →
  ev_error e = Some err →
  out_res (create r signature w).2 = Err err
  ∧ S k = length (out_trace (create r signature w).2)
  ∧ Forall (λ x, ev_error x = None)
      (take k (out_trace (create r signature w).2)).
Proof.
  intros Hk He.
  pose proof (lookup_lt_Some _ _ _ Hk) as Hlt.
  pose proof (take_drop_middle _ _ _ Hk) as Hcut. symmetry in Hcut.
  destruct (create_run_ends _ _ _ _ (create_run_of r signature w))
    as [(oks & f & e' & Htr & Hoks & Hf & Hres) | [Hall _]].
  - rewrite Htr in Hcut at 1.
    assert (Forall (λ x, ¬ ev_error x = Some err) oks) as Hno.
    { eapply Forall_impl; [exact Hoks |]. by intros x ->. }
    destruct (prefix_decomp _ _ _ _ _ _ Hno Hcut He) as (pre' & Hpre & Htl).
    destruct pre' as [| x [| y pre']]; cbn in Htl; simplify_eq.
    rewrite app_nil_r in Hpre. rewrite Hpre.
    split; [by rewrite Hres; f_equal; congruence |]. split; [| done].
    rewrite Htr, length_app. cbn [length].
    apply (f_equal length) in Hpre. rewrite length_take in Hpre. lia.
  - rewrite Forall_lookup in Hall. specialize (Hall _ _ Hk). congruence.
Qed.

Lemma create_fails_fast_witness :
  ∃ e err,
    out_trace (create (Double.remote "amd64" "localhost:5000") Double.sig
                 (Double.fresh 10)).2 !! 11 = Some e
    ∧ ev_kind e = KGetIndex
    ∧ ev_error e = Some err
    ∧ out_res (create (Double.remote "amd64" "localhost:5000") Double.sig
                 (Double.fresh 10)).2 = Err err.
Proof.
  remember (out_trace (create (Double.remote "amd64" "localhost:5000")
                         Double.sig (Double.fresh 10)).2 !! 11) as o eqn:Hk.
  pose proof Hk as Hk'. vm_compute in Hk'. rewrite Hk' in Hk |- *.
  symmetry in Hk.
  eexists _, _.
  split; [reflexivity |]. split; [reflexivity |]. split; [reflexivity |].
  exact (proj1 (create_fails_fast _ _ _ 11 _ _ Hk eq_refl)).
Defined.

(** X2. Where errors come from: an error returned by [create] is the error of
    its last call, passed on unchanged, or the architecture error of a
    bundle without architecture (after two successful calls), or the
    error of the serializer, in which case every package is already
    published and nothing else has been pushed. *)
Theorem create_error_origin {W : Type} `{C : Collaborators W}
  r signature (w : W) e :
  out_res (create r signature w).2 = Err e →
  error_origin (bundle r) e (out_trace (create r signature w).2).
Proof.
  intros Hres. unfold error_origin.
  destruct (create_run_ends _ _ _ _ (create_run_of r signature w))
    as [(oks & f & e' & Htr & Hoks & Hf & Hres')
       | [Hall [[Hok _] | [(Hres' & Ha & ref & dst & Htr)
                          | (e' & Hres' & Hm & Hp & Hk)]]]];
    rewrite Hres in *; simplify_eq.
  - left. exists f. rewrite Htr, last_snoc. by rewrite Hf.
  - right; left. repeat split; try done. by rewrite Htr.
  - right; right. by repeat split.
Qed.

Lemma create_error_origin_witness :
  out_res (@create _ unmarshalable (Double.remote "amd64" "localhost:5000")
             Double.sig (Double.fresh 100)).2 = Err "cannot marshal"
  ∧ @error_origin _ unmarshalable
      (bundle (Double.remote "amd64" "localhost:5000")) "cannot marshal"
      (out_trace (@create _ unmarshalable
                    (Double.remote "amd64" "localhost:5000")
                    Double.sig (Double.fresh 100)).2).
Proof.
  refine ((λ H, conj H (@create_error_origin _ unmarshalable _ _ _ _ H)) _).
  vm_compute. reflexivity.
Defined.

(** X3. Success: [create] returns without error exactly when its last call is
    a successful push of the index; every call of such a run succeeded. *)
Theorem create_succeeds_iff_index_pushed {W : Type} `{C : Collaborators W}
  r signature (w : W) :
  (out_res (create r signature w).2 = Ok tt
   ↔ ∃ dst b idx,
       last (out_trace (create r signature w).2)
       = Some (EvPushIndex dst b idx (Ok tt)))
  ∧ (out_res (create r signature w).2 = Ok tt →
     Forall (λ x, ev_error x = None) (out_trace (create r signature w).2)).
Proof.
  destruct (create_run_ends _ _ _ _ (create_run_of r signature w))
    as [(oks & f & e' & Htr & Hoks & Hf & Hres)
       | [Hall [[Hok Hlast] | [(Hres & Ha & ref & dst & Htr)
                              | (e' & Hres & Hm & Hp & Hk)]]]].
  - split; [split |]; try (rewrite Hres; done).
    intros (dst & b & idx & Hl). rewrite Htr, last_snoc in Hl.
    injection Hl as ->. done.
  - done.
  - split; [split |]; try (rewrite Hres; done).
    intros (dst' & b & idx & Hl). by rewrite Htr in Hl.
  - split; [split |]; try (rewrite Hres; done).
    intros (dst & b & idx & Hl). apply last_Some_elem_of in Hl.
    rewrite Forall_forall in Hk. by specialize (Hk _ Hl).
Qed.

(* ===================================================================== *)
(** ** The order of the calls *)
(* ===================================================================== *)

Section protocol_facts.
Context {W : Type} `{C : Collaborators W}.

Lemma pkg_events_kinds p pkgs : ∀ ans i cfg,
  length ans = length pkgs →
  ev_kind <$> pkg_events p pkgs ans i cfg
  = concat (replicate (length pkgs) [KBind; KFetchRoot; KPkgPush]).
Proof.
  induction pkgs as [| pkg pkgs IH]; intros [| a ans] i cfg Hlen;
    cbn in *; try done.
  do 3 f_equal. apply IH. lia.
Qed.

Lemma packaged_events_kinds r ref dst ans :
  length ans = length (Packages (bundle r)) →
  ev_kind <$> packaged_events r ref dst ans
  = [KResolve; KBind]
    ++ concat (replicate (length (Packages (bundle r)))
                 [KBind; KFetchRoot; KPkgPush]).
Proof.
  intros Hlen. unfold packaged_events. rewrite fmap_app.
  by rewrite pkg_events_kinds.
Qed.

Lemma layered_events_kinds r signature ref dst ans bytes d sd :
  length ans = length (Packages (bundle r)) →
  signature_pushed signature sd →
  ev_kind <$> layered_events r signature ref dst ans bytes d sd
  = [KResolve; KBind]
    ++ concat (replicate (length (Packages (bundle r)))
                 [KBind; KFetchRoot; KPkgPush])
    ++ KPushLayer
       :: (if bool_decide (0 < length signature) then [KPushLayer] else []).
Proof.
  intros Hlen Hs. unfold layered_events.
  rewrite fmap_app, packaged_events_kinds by done.
  rewrite <- app_assoc. do 2 f_equal. cbn. f_equal.
  destruct sd; cbn in Hs.
  - by rewrite bool_decide_eq_true_2.
  - by rewrite bool_decide_eq_false_2.
Qed.

End protocol_facts.

(** Solves [l1 `prefix_of` l2] for lists that share their front part. *)
Ltac prefix_steps :=
  repeat first
    [ apply prefix_nil | apply prefix_cons | apply prefix_app | reflexivity ].

(** X5. The protocol: in every run the kinds of the calls made, in order, are
    an initial part of the sequence resolve, bind, then bind, fetch,
    publish for each package, push metadata, push signature (only for a
    non-empty signature), push config, fetch index, push root manifest,
    push index; a successful run makes the whole sequence, each call
    once. *)
Theorem create_follows_protocol {W : Type} `{C : Collaborators W}
  r signature (w : W) :
  (ev_kind <$> out_trace (create r signature w).2)
  `prefix_of` protocol (length (Packages (bundle r)))
                (bool_decide (0 < length signature))
  ∧ (out_res (create r signature w).2 = Ok tt →
     ev_kind <$> out_trace (create r signature w).2
     = protocol (length (Packages (bundle r)))
         (bool_decide (0 < length signature))).
Proof.
  pose proof (create_run_of r signature w) as Hrun.
  set (r' := set_output (EnsureOCIPrefix (output r)) r) in *.
  change (bundle r) with (bundle r').
  destruct Hrun
    as [ e0 | ref e0 | ref dst Ha
       | ref dst done pkg rest ans tail e0 Ha Hpk Hlen Hf
       | ref dst ans e0 Ha Hlen Hm
       | ref dst ans bytes e0 Ha Hlen Hm
       | ref dst ans bytes d e0 Ha Hlen Hm Hs
       | ref dst ans bytes d sd e0 Ha Hlen Hm Hs
       | ref dst ans bytes d sd cd e0 Ha Hlen Hm Hs
       | ref dst ans bytes d sd cd oidx res tl Ha Hlen Hm Hs Hp ];
    unfold protocol.
  - split; [| done]. cbn. prefix_steps.
  - split; [| done]. cbn. prefix_steps.
  - split; [| done]. cbn. prefix_steps.
  - split; [| done]. rewrite Hpk, length_app. cbn [length].
    rewrite replicate_add, concat_app, replicate_S. cbn [concat].
    rewrite !fmap_app, pkg_events_kinds by done.
    rewrite <- !app_assoc. cbn [fmap list_fmap bound_events app].
    do 2 apply prefix_cons. apply prefix_app.
    destruct Hf; cbn; prefix_steps.
  - split; [| done]. rewrite packaged_events_kinds by done.
    cbn [app]. do 2 apply prefix_cons.
    rewrite <- (app_nil_r (concat _)) at 1. prefix_steps.
  - split; [| done]. rewrite fmap_app, packaged_events_kinds by done.
    rewrite <- app_assoc. cbn. prefix_steps.
  - split; [| done].
    unfold layered_events. cbn [signature_events].
    rewrite !fmap_app, packaged_events_kinds by done.
    rewrite bool_decide_eq_true_2 by done.
    rewrite <- !app_assoc. cbn. prefix_steps.
  - split; [| done].
    rewrite fmap_app, (layered_events_kinds r') by done.
    rewrite <- !app_assoc. cbn [app fmap list_fmap ev_kind].
    prefix_steps.
  - split; [| done].
    rewrite fmap_app, (layered_events_kinds r') by done.
    rewrite <- !app_assoc. cbn [app fmap list_fmap ev_kind].
    prefix_steps.
  - rewrite !fmap_app, (layered_events_kinds r') by done.
    rewrite <- !app_assoc. cbn [app fmap list_fmap ev_kind].
    destruct Hp as [e1 | rd ri]; cbn [app fmap list_fmap ev_kind].
    + split; [| done]. prefix_steps.
    + split; [| done]. prefix_steps.
Qed.

(* ===================================================================== *)
(** ** The destination client, the layers and the sources *)
(* ===================================================================== *)

Lemma omap_None {A B} (f : A → option B) (l : list A) :
  Forall (λ x, f x = None) l → omap f l = [].
Proof. induction 1 as [| x l Hx _ IH]; cbn; [done |]. by rewrite Hx. Qed.

Section destination_facts.
Context {W : Type} `{C : Collaborators W}.

Lemma pkg_events_payloads p pkgs ans i cfg :
  layer_payloads (pkg_events p pkgs ans i cfg) = [].
Proof.
  apply omap_None. eapply Forall_impl; [apply pkg_events_kind |].
  by intros [].
Qed.

Lemma packaged_events_payloads r ref dst ans :
  layer_payloads (packaged_events r ref dst ans) = [].
Proof.
  unfold packaged_events, layer_payloads. rewrite omap_app. cbn.
  apply pkg_events_payloads.
Qed.

Lemma layered_events_payloads r signature ref dst ans bytes d sd :
  signature_pushed signature sd →
  layer_payloads (layered_events r signature ref dst ans bytes d sd)
  = expected_payloads bytes signature.
Proof.
  intros Hs. unfold layered_events, layer_payloads. rewrite omap_app.
  fold (layer_payloads (packaged_events r ref dst ans)).
  rewrite packaged_events_payloads. unfold expected_payloads.
  destruct sd; cbn in *; by case_decide.
Qed.

Lemma layer_payloads_app tr1 tr2 :
  layer_payloads (tr1 ++ tr2) = layer_payloads tr1 ++ layer_payloads tr2.
Proof. apply omap_app. Qed.

Lemma pkg_events_urls p pkgs : ∀ ans i cfg,
  length ans = length pkgs →
  bound_urls (pkg_events p pkgs ans i cfg) = pkgUrl <$> pkgs.
Proof.
  induction pkgs as [| pkg pkgs IH]; intros [| a ans] i cfg Hlen;
    cbn in *; try done.
  f_equal. apply IH. lia.
Qed.

Lemma bound_urls_app tr1 tr2 :
  bound_urls (tr1 ++ tr2) = bound_urls tr1 ++ bound_urls tr2.
Proof. apply omap_app. Qed.

Lemma failing_step_urls p pkg e tail :
  failing_step p pkg e tail → bound_urls tail = [pkgUrl pkg].
Proof. by destruct 1. Qed.

Lemma layered_events_urls r signature ref dst ans bytes d sd :
  length ans = length (Packages (bundle r)) →
  bound_urls (layered_events r signature ref dst ans bytes d sd)
  = ref :: (pkgUrl <$> Packages (bundle r)).
Proof.
  intros Hlen. unfold layered_events, packaged_events.
  rewrite !bound_urls_app, pkg_events_urls by done.
  destruct sd; cbn; by rewrite app_nil_r.
Qed.

End destination_facts.

(** X6. One destination: every call made after the package loop (layer,
    config, index fetch, root manifest, index push) goes to the client
    returned by the bind of the destination, the second call of the run;
    layers are pushed with the Zarf blob media type, the root manifest
    with the OCI image-manifest media type, and the index is fetched
    under the reference of that client. *)
Theorem create_stays_on_destination {W : Type} `{C : Collaborators W}
  r signature (w : W) ref p dst :
  out_trace (create r signature w).2 !! 1 = Some (EvBind ref p (Ok dst)) →
  Forall (on_destination dst) (out_trace (create r signature w).2).
Proof.
  intros Hk. pose proof (create_run_of r signature w) as Hrun.
  destruct Hrun
    as [ | | | | | | | |
       | ? ? ? ? ? ? ? ? ? ? ? ? ? ? Hp ];
    try destruct Hp;
    unfold layered_events, packaged_events, bound_events in Hk;
    rewrite <- ?app_assoc in Hk; cbn in Hk; simplify_eq;
    forall_events ltac:(by intros []).
Qed.

Lemma create_stays_on_destination_witness :
  ∃ ref p dst,
    out_trace (create (Double.remote "amd64" "localhost:5000") Double.sig
                 (Double.fresh 100)).2 !! 1 = Some (EvBind ref p (Ok dst))
    ∧ Forall (on_destination dst)
        (out_trace (create (Double.remote "amd64" "localhost:5000")
                      Double.sig (Double.fresh 100)).2).
Proof.
  eexists _, _, _.
  refine ((λ H, conj H (create_stays_on_destination _ _ _ _ _ _ H)) _).
  reflexivity.
Defined.

(** X7. The layers pushed: [create] hands to [PushLayer] the serialized
    bundle first and then the signature, and the signature only when it
    is not empty; a run that stops early has pushed an initial part of
    these, a successful run all of them, and a bundle that does not
    serialize has no layer pushed at all. *)
Theorem create_pushes_expected_layers {W : Type} `{C : Collaborators W}
  r signature (w : W) :
  match Marshal (bundle r) with
  | Ok bytes =>
      layer_payloads (out_trace (create r signature w).2)
      `prefix_of` expected_payloads bytes signature
      ∧ (out_res (create r signature w).2 = Ok tt →
         layer_payloads (out_trace (create r signature w).2)
         = expected_payloads bytes signature)
  | Err _ => layer_payloads (out_trace (create r signature w).2) = []
  end.
Proof.
  pose proof (create_run_of r signature w) as Hrun.
  set (r' := set_output (EnsureOCIPrefix (output r)) r) in *.
  change (bundle r) with (bundle r').
  destruct Hrun
    as [ e0 | ref e0 | ref dst Ha
       | ref dst done pkg rest ans tail e0 Ha Hpk Hlen Hf
       | ref dst ans e0 Ha Hlen Hm
       | ref dst ans bytes e0 Ha Hlen Hm
       | ref dst ans bytes d e0 Ha Hlen Hm Hs
       | ref dst ans bytes d sd e0 Ha Hlen Hm Hs
       | ref dst ans bytes d sd cd e0 Ha Hlen Hm Hs
       | ref dst ans bytes d sd cd oidx res tl Ha Hlen Hm Hs Hp ].
  - destruct (Marshal _); [split; [apply prefix_nil | done] | done].
  - destruct (Marshal _); [split; [apply prefix_nil | done] | done].
  - destruct (Marshal _); [split; [apply prefix_nil | done] | done].
  - assert (layer_payloads
              (bound_events r' ref dst
               ++ pkg_events platform done ans 0 (pusherConfig0 r' dst)
               ++ tail) = []) as ->.
    { rewrite !layer_payloads_app, pkg_events_payloads. cbn.
      by destruct Hf. }
    destruct (Marshal _); [split; [apply prefix_nil | done] | done].
  - rewrite Hm. apply packaged_events_payloads.
  - rewrite Hm, layer_payloads_app, packaged_events_payloads. cbn.
    split; [| done]. unfold expected_payloads. prefix_steps.
  - rewrite Hm. unfold layered_events. cbn [signature_events].
    rewrite !layer_payloads_app, packaged_events_payloads. cbn.
    split; [| done]. unfold expected_payloads. by case_decide.
  - rewrite Hm, layer_payloads_app, layered_events_payloads by done. cbn.
    split; [| done]. by rewrite app_nil_r.
  - rewrite Hm, layer_payloads_app, layered_events_payloads by done. cbn.
    split; [| done]. by rewrite app_nil_r.
  - rewrite Hm, !layer_payloads_app, layered_events_payloads by done.
    destruct Hp; cbn; rewrite app_nil_r; by split.
Qed.

(** X8. The sources: the first client is bound to the reference that the
    resolver returned, and after it one client per package, in the order
    of the bundle, to the address [repository:ref] of the package; a run
    that stops in the loop has bound an initial part of the packages, a
    successful run all of them, each once. *)
Theorem create_binds_sources_in_order {W : Type} `{C : Collaborators W}
  r signature (w : W) out md ref :
  out_trace (create r signature w).2 !! 0 = Some (EvResolve out md (Ok ref)) →
  ∃ urls,
    bound_urls (out_trace (create r signature w).2) = ref :: urls
    ∧ urls `prefix_of` (pkgUrl <$> Packages (bundle r))
    ∧ (out_res (create r signature w).2 = Ok tt →
       urls = pkgUrl <$> Packages (bundle r)).
Proof.
  intros Hk. pose proof (create_run_of r signature w) as Hrun.
  set (r' := set_output (EnsureOCIPrefix (output r)) r) in *.
  change (bundle r) with (bundle r').
  destruct Hrun
    as [ e0 | ref0 e0 | ref0 dst Ha
       | ref0 dst done pkg rest ans tail e0 Ha Hpk Hlen Hf
       | ref0 dst ans e0 Ha Hlen Hm
       | ref0 dst ans bytes e0 Ha Hlen Hm
       | ref0 dst ans bytes d e0 Ha Hlen Hm Hs
       | ref0 dst ans bytes d sd e0 Ha Hlen Hm Hs
       | ref0 dst ans bytes d sd cd e0 Ha Hlen Hm Hs
       | ref0 dst ans bytes d sd cd oidx res tl Ha Hlen Hm Hs Hp ];
    unfold layered_events, packaged_events, bound_events in Hk;
    rewrite <- ?app_assoc in Hk; cbn in Hk; simplify_eq.
  - exists []. split; [done |]. split; [apply prefix_nil | done].
  - exists []. split; [done |]. split; [apply prefix_nil | done].
  - exists ((pkgUrl <$> done) ++ [pkgUrl pkg]).
    rewrite !bound_urls_app, pkg_events_urls by done.
    rewrite (failing_step_urls _ _ _ _ Hf).
    split; [done |]. split; [| done].
    rewrite Hpk, fmap_app. cbn. prefix_steps.
  - exists (pkgUrl <$> Packages (bundle r')).
    unfold packaged_events. rewrite bound_urls_app, pkg_events_urls by done.
    by repeat split.
  - exists (pkgUrl <$> Packages (bundle r')).
    unfold packaged_events.
    rewrite !bound_urls_app, pkg_events_urls by done. cbn.
    rewrite app_nil_r. by repeat split.
  - exists (pkgUrl <$> Packages (bundle r')).
    rewrite bound_urls_app, layered_events_urls by done. cbn.
    rewrite app_nil_r. by repeat split.
  - exists (pkgUrl <$> Packages (bundle r')).
    rewrite bound_urls_app, layered_events_urls by done. cbn.
    rewrite app_nil_r. by repeat split.
  - exists (pkgUrl <$> Packages (bundle r')).
    rewrite bound_urls_app, layered_events_urls by done. cbn.
    rewrite app_nil_r. by repeat split.
  - exists (pkgUrl <$> Packages (bundle r')).
    rewrite !bound_urls_app, layered_events_urls by done.
    destruct Hp; cbn; rewrite app_nil_r; by repeat split.
Qed.

Lemma create_binds_sources_in_order_witness :
  ∃ out md ref,
    out_trace (create (Double.remote "amd64" "localhost:5000") Double.sig
                 (Double.fresh 100)).2 !! 0 = Some (EvResolve out md (Ok ref))
    ∧ bound_urls
        (out_trace (create (Double.remote "amd64" "localhost:5000")
                      Double.sig (Double.fresh 100)).2)
      = [ref; "ghcr.io/p/one:0.0.1"; "ghcr.io/p/two:0.0.2"].
Proof.
  remember (out_trace (create (Double.remote "amd64" "localhost:5000")
                         Double.sig (Double.fresh 100)).2 !! 0) as o eqn:Hk.
  pose proof Hk as Hk'. vm_compute in Hk'. rewrite Hk' in Hk |- *.
  symmetry in Hk.
  eexists _, _, _. split; [reflexivity |].
  destruct (create_binds_sources_in_order _ _ _ _ _ _ Hk)
    as (urls & Hu & _ & Hall).
  rewrite Hu. f_equal. apply Hall. vm_compute. reflexivity.
Defined.

(* ===================================================================== *)
(** ** Serialization failure and the last call *)
(* ===================================================================== *)

(** X9. A bundle that does not serialize is never published: [create] does
    not return success, and no layer, no config, no root manifest and no
    index is pushed, nor is the index fetched; the serializer is asked only
    after the package loop, so packages may already be published. *)
Theorem create_unserializable {W : Type} `{C : Collaborators W}
  r signature (w : W) e :
  Marshal (bundle r) = Err e →
  out_res (create r signature w).2 ≠ Ok tt
  ∧ Forall (λ x, is_assembly_step x = false)
      (out_trace (create r signature w).2)
  ∧ (Forall (λ x, ev_error x = None) (out_trace (create r signature w).2) →
     Architecture (Metadata (bundle r)) ≠ "" →
     out_res (create r signature w).2 = Err e
     ∧ (published (out_trace (create r signature w).2)).*1
       = Packages (bundle r)).
Proof.
  intros Hm. pose proof (create_run_of r signature w) as Hrun.
  set (r' := set_output (EnsureOCIPrefix (output r)) r) in *.
  change (bundle r) with (bundle r') in *.
  destruct Hrun
    as [ e0 | ref e0 | ref dst Ha
       | ref dst done pkg rest ans tail e0 Ha Hpk Hlen Hf
       | ref dst ans e0 Ha Hlen Hm'
       | | | | | ];
    try congruence.
  - split; [done |]. split; [by repeat constructor |].
    intros Hok. by apply Forall_cons in Hok as [? _].
  - split; [done |]. split; [by repeat constructor |].
    intros Hok. apply Forall_cons in Hok as [_ Hok].
    by apply Forall_cons in Hok as [? _].
  - split; [done |]. split; [by repeat constructor | done].
  - split; [done |]. split; [forall_events ltac:(by intros []; cbn) |].
    intros Hok. exfalso.
    apply Forall_app in Hok as [_ Hok]. apply Forall_app in Hok as [_ Hok].
    destruct Hf; repeat (apply Forall_cons in Hok as [? Hok]); done.
  - split; [done |]. split; [apply packaged_events_kind |].
    intros _ _. split; [congruence |].
    rewrite packaged_events_published. apply fst_zip.
    rewrite length_map. lia.
Qed.

Lemma create_unserializable_witness :
  @Marshal _ unmarshalable (bundle (Double.remote "amd64" "localhost:5000"))
  = Err "cannot marshal"
  ∧ out_res (@create _ unmarshalable (Double.remote "amd64" "localhost:5000")
               Double.sig (Double.fresh 100)).2 ≠ Ok tt
  ∧ Forall (λ x, is_assembly_step x = false)
      (out_trace (@create _ unmarshalable
                    (Double.remote "amd64" "localhost:5000")
                    Double.sig (Double.fresh 100)).2).
Proof.
  refine ((λ H, conj H
             ((λ T, conj (proj1 T) (proj1 (proj2 T)))
                (@create_unserializable _ unmarshalable _ _ _ _ H))) _).
  reflexivity.
Defined.

Section index_push.
Context {W : Type} `{C : Collaborators W}.

(** A run in which the index is pushed, cut at that push. *)
Lemma create_run_index_cut r signature res tr pre dst0 b idx res0 post :
  create_run r signature res tr →
  tr = pre ++ EvPushIndex dst0 b idx res0 :: post →
  ∃ ref ans bytes d sd cd oidx rd,
    pre = layered_events r signature ref dst0 ans bytes d sd
          ++ [EvPushConfig dst0 (Metadata (bundle r)) (Build (bundle r))
                (Ok cd);
              EvGetIndex dst0 (Reference dst0) (Ok oidx);
              EvPushManifest (root_manifest r ans d sd cd)
                MediaTypeImageManifest dst0 (Ok rd)]
    ∧ post = [] ∧ b = bundle r ∧ res = res0.
Proof.
  set (e0 := EvPushIndex dst0 b idx res0).
  assert (∀ t, Forall (λ x, ev_kind x ≠ KPushIndex) t →
               t = pre ++ e0 :: post → False) as Hno.
  { intros t Ht ->. apply Forall_app in Ht as [_ Ht].
    by apply Forall_cons in Ht as [? _]. }
  destruct 1
    as [ | | | | | | | |
       | ref dst ans bytes d sd cd oidx res tl Ha Hlen Hm Hs Hp ];
    intros Heq;
    try (by exfalso;
            match type of Heq with
            | ?t = _ =>
                apply (Hno t);
                [forall_events ltac:(by intros []; cbn) | exact Heq]
            end).
  destruct Hp as [e | rd ri].
  { exfalso.
    match type of Heq with
    | ?t = _ =>
        apply (Hno t); [forall_events ltac:(by intros []; cbn) | exact Heq]
    end. }
  assert (Forall (λ x, ¬ ev_kind x = ev_kind e0)
            (layered_events r signature ref dst ans bytes d sd
             ++ [EvPushConfig dst (Metadata (bundle r)) (Build (bundle r))
                   (Ok cd);
                 EvGetIndex dst (Reference dst) (Ok oidx);
                 EvPushManifest (root_manifest r ans d sd cd)
                   MediaTypeImageManifest dst (Ok rd)])) as HF
    by (forall_events ltac:(by intros []; cbn)).
  assert (layered_events r signature ref dst ans bytes d sd
          ++ [EvPushConfig dst (Metadata (bundle r)) (Build (bundle r))
                (Ok cd);
              EvGetIndex dst (Reference dst) (Ok oidx)]
          ++ [EvPushManifest (root_manifest r ans d sd cd)
                MediaTypeImageManifest dst (Ok rd);
              EvPushIndex dst (bundle r) (updated_index oidx dst rd) ri]
          = (layered_events r signature ref dst ans bytes d sd
             ++ [EvPushConfig dst (Metadata (bundle r)) (Build (bundle r))
                   (Ok cd);
                 EvGetIndex dst (Reference dst) (Ok oidx);
                 EvPushManifest (root_manifest r ans d sd cd)
                   MediaTypeImageManifest dst (Ok rd)])
            ++ [EvPushIndex dst (bundle r) (updated_index oidx dst rd) ri])
    as Hshape by (by rewrite <- app_assoc).
  rewrite Hshape in Heq. clear Hshape.
  destruct (prefix_decomp _ _ _ _ _ _ HF Heq eq_refl) as (pre' & -> & Htl).
  subst e0.
  destruct pre' as [| x pre']; cbn in Htl; simplify_eq;
    [| by destruct pre'].
  exists ref, ans, bytes, d, sd, cd, oidx, rd.
  by rewrite app_nil_r.
Qed.

End index_push.

(** X10. The index push comes last: when [create] pushes the index, this is
    the last call of the run, made for the bundle of the receiver on the
    same client as the three calls before it, which all succeeded: the
    push of the config, the fetch of the index under the reference of the
    client, and the push of the root manifest. [create] returns what the
    index push answers. *)
Theorem create_pushes_index_last {W : Type} `{C : Collaborators W}
  r signature (w : W) k dst b idx res :
  out_trace (create r signature w).2 !! k
  = Some (EvPushIndex dst b idx res) →
  b = bundle r
  ∧ S k = length (out_trace (create r signature w).2)
  ∧ out_res (create r signature w).2 = res
  ∧ ∃ j cd oidx m rd,
      k = j + 3
      ∧ out_trace (create r signature w).2 !! j
        = Some (EvPushConfig dst (Metadata (bundle r)) (Build (bundle r))
                  (Ok cd))
      ∧ out_trace (create r signature w).2 !! (j + 1)
        = Some (EvGetIndex dst (Reference dst) (Ok oidx))
      ∧ out_trace (create r signature w).2 !! (j + 2)
        = Some (EvPushManifest m MediaTypeImageManifest dst (Ok rd)).
Proof.
  intros Hk.
  pose proof (lookup_lt_Some _ _ _ Hk) as Hlt.
  pose proof (take_drop_middle _ _ _ Hk) as Hcut. symmetry in Hcut.
  destruct (create_run_index_cut _ _ _ _ _ _ _ _ _ _
              (create_run_of r signature w) Hcut)
    as (ref & ans & bytes & d & sd & cd & oidx & rd
        & Hpre & Hpost & -> & Hres).
  cbn [bundle set_output] in *.
  set (r' := set_output (EnsureOCIPrefix (output r)) r) in *.
  set (L := layered_events r' signature ref dst ans bytes d sd) in *.
  assert (k = length L + 3) as Hklen.
  { apply (f_equal length) in Hpre. rewrite length_take, length_app in Hpre.
    cbn [length] in Hpre. lia. }
  split; [done |]. split.
  { apply (f_equal length) in Hpost. rewrite length_drop in Hpost.
    cbn [length] in Hpost. lia. }
  split; [done |].
  exists (length L), cd, oidx, (root_manifest r' ans d sd cd), rd.
  split; [done |].
  rewrite Hcut, Hpre, <- !app_assoc.
  repeat split.
  - rewrite lookup_app_r by lia. by rewrite Nat.sub_diag.
  - rewrite lookup_app_r by lia.
    by replace (length L + 1 - length L) with 1 by lia.
  - rewrite lookup_app_r by lia.
    by replace (length L + 2 - length L) with 2 by lia.
Qed.

Lemma create_pushes_index_last_witness :
  ∃ dst b idx res,
    out_trace (create (Double.remote "amd64" "localhost:5000") Double.sig
                 (Double.fresh 100)).2 !! 13
    = Some (EvPushIndex dst b idx res)
    ∧ b = bundle (Double.remote "amd64" "localhost:5000")
    ∧ out_res (create (Double.remote "amd64" "localhost:5000") Double.sig
                 (Double.fresh 100)).2 = res.
Proof.
  eexists _, _, _, _.
  refine ((λ H, conj H
             ((λ T, conj (proj1 T) (proj1 (proj2 (proj2 T))))
                (create_pushes_index_last _ _ _ 13 _ _ _ _ H))) _).
  reflexivity.
Defined.

(* ===================================================================== *)
(** ** What the package publisher is handed *)
(* ===================================================================== *)

Section publisher_facts.
Context {W : Type} `{C : Collaborators W}.

Lemma bind_trace {A B} (m : M W A) (k : A → M W B) w :
  out_trace ((m ≫= k) w)
  = out_trace (m w)
    ++ match out_res (m w) with
       | Ok a => out_trace (k a (out_world (m w)))
       | Err _ => []
       end.
Proof.
  destruct (out_res (m w)) as [a | e] eqn:E.
  - by rewrite (bind_ok _ _ _ _ E).
  - rewrite (bind_err _ _ _ _ E). cbn. by rewrite app_nil_r.
Qed.

(** The calls of the loop come in threes; the publisher of package [k] is
    handed the client and the root manifest of the two calls before. *)
Lemma pushPackages_push p pkgs : ∀ i cfg m (w : W) j pkg c res,
  out_trace (pushPackages p pkgs i cfg m w) !! j
  = Some (EvPkgPush pkg c res) →
  ∃ k src mf,
    j = 3 * k + 2
    ∧ pkgs !! k = Some pkg
    ∧ PkgIter c = i + k
    ∧ NumPkgs c = NumPkgs cfg
    ∧ Bundle c = Bundle cfg
    ∧ RemoteDst c = RemoteDst cfg
    ∧ RemoteSrc c = Some src
    ∧ PkgRootManifest c = Some mf
    ∧ out_trace (pushPackages p pkgs i cfg m w) !! (3 * k)
      = Some (EvBind (pkgUrl pkg) p (Ok src))
    ∧ out_trace (pushPackages p pkgs i cfg m w) !! (3 * k + 1)
      = Some (EvFetchRoot src (Ok mf)).
Proof.
  induction pkgs as [| pkg0 pkgs IH]; intros i cfg m w j pkg c res;
    cbn [pushPackages]; [done |].
  fold (pkgUrl pkg0).
  step_call src e w1;
    [| by destruct j as [| j]].
  step_call mf e w2;
    [| by destruct j as [| [| j]]].
  step_call d e w3.
  - destruct j as [| [| [| j]]]; try done.
    + intros [= <- <- <-]. exists 0, src, mf. by repeat split.
    + intros Hj.
      destruct (IH (S i) (set_package mf i (set_source src cfg))
                  (append_Layer d m) w3 j pkg c res Hj)
        as (k & src' & mf' & -> & Hk & Hi & Hn & Hb & Hd & Hs & Hm & H0 & H1).
      exists (S k), src', mf'.
      split; [lia |]. split; [done |]. split; [lia |].
      do 5 (split; [done |]).
      split.
      * replace (3 * S k) with (S (S (S (3 * k)))) by lia. exact H0.
      * replace (3 * S k + 1) with (S (S (S (3 * k + 1)))) by lia. exact H1.
  - destruct j as [| [| [| j]]]; try done.
    intros [= <- <- <-]. exists 0, src, mf. by repeat split.
Qed.

Lemma pushSignature_no_publish dst signature m :
  every_call (λ x, ev_kind x ≠ KPkgPush) (pushSignature dst signature m).
Proof.
  unfold pushSignature. case_decide; [| apply every_call_ret].
  apply every_call_bind; [by apply every_call_call | intros s].
  apply every_call_ret.
Qed.

End publisher_facts.

(** X4. The package publisher: each call to it is the third call made for its
    package. For the package at position [k] of the bundle it is handed
    the position [k], the number of packages, the bundle, the destination
    client, and the source client and root manifest that the two calls
    just before returned: the client bound to [repository:ref] of this
    package and the root manifest fetched through it, never those of
    another package. *)
Theorem create_configures_publisher {W : Type} `{C : Collaborators W}
  r signature (w : W) j pkg cfg res :
  out_trace (create r signature w).2 !! j = Some (EvPkgPush pkg cfg res) →
  configured_for (bundle r) (out_trace (create r signature w).2) j pkg cfg.
Proof.
  unfold configured_for. cbn [create snd].
  set (r' := set_output (EnsureOCIPrefix (output r)) r).
  change (bundle r) with (bundle r'). clearbody r'. clear r.
  rename r' into r.
  unfold create_steps. fold platform.
  step_call ref e w1; [| by destruct j as [| j]].
  step_call dst e w2; [| by destruct j as [| [| j]]].
  case_decide; [by destruct j as [| [| j]] |].
  rewrite bind_trace.
  set (L := out_trace (pushPackages _ _ _ _ _ _)).
  set (T := match out_res _ with Ok _ => _ | Err _ => _ end).
  assert (Forall (λ x, ev_kind x ≠ KPkgPush) T) as HT.
  { subst T. destruct (out_res _) as [m1 | e]; [| constructor].
    apply every_call_bind; [apply every_call_lift | intros bytes].
    apply every_call_bind; [by apply every_call_call | intros d].
    apply every_call_bind; [apply pushSignature_no_publish | intros m2].
    apply every_call_bind; [by apply every_call_call | intros cd].
    apply every_call_bind; [by apply every_call_call | intros oidx].
    apply every_call_bind; [by apply every_call_call | intros rd].
    by apply every_call_call. }
  destruct j as [| [| j]]; try done.
  intros Hj. change (((L ++ T) !! j) = Some (EvPkgPush pkg cfg res)) in Hj.
  apply lookup_app_Some in Hj as [Hj | [_ Hj]].
  2: { by apply (Forall_lookup_1 _ _ _ _ HT) in Hj. }
  destruct (pushPackages_push _ _ _ _ _ _ _ _ _ _ Hj)
    as (k & src & mf & -> & Hk & Hi & Hn & Hb & Hd & Hs & Hm & H0 & H1).
  exists k, src, mf, ref.
  split; [lia |]. split; [done |]. split; [done |]. split; [done |].
  split; [done |]. split; [done |]. split; [done |].
  split; [by rewrite Hd |].
  replace (3 * k + 2) with (S (S (3 * k))) by lia.
  replace (3 * k + 3) with (S (S (3 * k + 1))) by lia.
  split.
  - change ((L ++ T) !! (3 * k) = Some (EvBind (pkgUrl pkg) platform (Ok src))).
    rewrite lookup_app_l; [done |]. by apply lookup_lt_Some in H0.
  - change ((L ++ T) !! (3 * k + 1) = Some (EvFetchRoot src (Ok mf))).
    rewrite lookup_app_l; [done |]. by apply lookup_lt_Some in H1.
Qed.

Lemma create_configures_publisher_witness :
  ∃ pkg cfg res,
    out_trace (create (Double.remote "amd64" "localhost:5000") Double.sig
                 (Double.fresh 100)).2 !! 7 = Some (EvPkgPush pkg cfg res)
    ∧ pkg = Double.P2
    ∧ PkgIter cfg = 1
    ∧ configured_for (bundle (Double.remote "amd64" "localhost:5000"))
        (out_trace (create (Double.remote "amd64" "localhost:5000")
                      Double.sig (Double.fresh 100)).2) 7 pkg cfg.
Proof.
  remember (out_trace (create (Double.remote "amd64" "localhost:5000")
                         Double.sig (Double.fresh 100)).2 !! 7) as o eqn:Hk.
  pose proof Hk as Hk'. vm_compute in Hk'. rewrite Hk' in Hk |- *.
  symmetry in Hk.
  eexists _, _, _.
  split; [reflexivity |]. split; [reflexivity |]. split; [reflexivity |].
  exact (create_configures_publisher _ _ _ 7 _ _ _ Hk).
Defined.

(* ===================================================================== *)
(** ** The options of the receiver *)
(* ===================================================================== *)

(** X11. The temporary directory plays no part: two receivers made by
    [NewRemoteBundle] from options with the same bundle and the same
    output make the same calls, get the same result and leave the same
    world, whatever their temporary directories, and each keeps its own
    directory. *)
Theorem create_ignores_tmpDstDir {W : Type} `{C : Collaborators W}
  opts1 opts2 signature (w : W) :
  OptBundle opts1 = OptBundle opts2 →
  OptOutput opts1 = OptOutput opts2 →
  (create (NewRemoteBundle opts1) signature w).2
  = (create (NewRemoteBundle opts2) signature w).2
  ∧ tmpDstDir (create (NewRemoteBundle opts1) signature w).1
    = OptTmpDstDir opts1
  ∧ tmpDstDir (create (NewRemoteBundle opts2) signature w).1
    = OptTmpDstDir opts2.
Proof.
  destruct opts1 as [b1 t1 o1], opts2 as [b2 t2 o2]. cbn.
  intros -> ->. by repeat split.
Qed.

Lemma create_ignores_tmpDstDir_witness :
  (create (NewRemoteBundle
             {| OptBundle := Double.core "amd64"; OptTmpDstDir := "/tmp/a";
                OptOutput := "localhost:5000" |})
     Double.sig (Double.fresh 100)).2
  = (create (NewRemoteBundle
               {| OptBundle := Double.core "amd64"; OptTmpDstDir := "/tmp/b";
                  OptOutput := "localhost:5000" |})
       Double.sig (Double.fresh 100)).2.
Proof.
  exact (proj1 (create_ignores_tmpDstDir
                  {| OptBundle := Double.core "amd64";
                     OptTmpDstDir := "/tmp/a";
                     OptOutput := "localhost:5000" |}
                  {| OptBundle := Double.core "amd64";
                     OptTmpDstDir := "/tmp/b";
                     OptOutput := "localhost:5000" |}
                  Double.sig (Double.fresh 100) eq_refl eq_refl)).
Defined.

(* ===================================================================== *)
(** ** The architecture check *)
(* ===================================================================== *)


